(** * mmaction2: ActivityNet dataset wrapper, evaluation metrics, VideoAligner

    A shallow embedding of

    - [mmaction/datasets/activitynet_dataset.py] (class [ActivityNetDataset]),
    - [mmaction/models/necks/video_aligner.py] (class [VideoAligner]),

    together with the metric functions of [mmaction/core/evaluation]
    that the dataset wrapper relies on.

    Python floats are represented by rationals ([Q]); Python [dict]s with
    string keys by [gmap string _]; exceptions by an explicit result type. *)

From Stdlib Require Import ZArith QArith Qminmax Qfield List Lia Lqa.
From stdpp Require Import base strings gmap list.

Set Warnings "-clear-no-such-hyp".

Open Scope string_scope.
Open Scope list_scope.

(** ** Python run-time conventions shared by the modules below *)

Module Py.

(** Exceptions, by class.  [LibraryError] stands for whatever a call into a
    library outside this package (mmcv, numpy, os) raises; the other
    constructors are raised by statements of the modelled code itself. *)
Inductive exn : Type :=
| ValueError (msg : string)
| TypeError (msg : string)
| IndexError (index size : nat)
| LibraryError (msg : string).

Inductive res (A : Type) : Type :=
| Ok (a : A)
| Raise (e : exn).
Arguments Ok {A} a.
Arguments Raise {A} e.

#[global] Instance res_ret : MRet res := fun A a => Ok a.
#[global] Instance res_bind : MBind res := fun A B f m =>
  match m with
  | Ok a => f a
  | Raise e => Raise e
  end.

(** [for x in l: s = body(s, x)], stopping at the first exception. *)
Fixpoint for_each {A S : Type} (body : S -> A -> res S) (l : list A) (s : S)
  : res S :=
  match l with
  | [] => Ok s
  | x :: l' => s' ← body s x; for_each body l' s'
  end.

(** [s[n:]] on a string. *)
Fixpoint str_drop (n : nat) (s : string) : string :=
  match n, s with
  | O, _ => s
  | S _, EmptyString => EmptyString
  | S n', String _ r => str_drop n' r
  end.

(** [a, b = xs]: unpacking a sequence into exactly two targets. *)
Definition unpack2 {A : Type} (xs : list A) : res (A * A) :=
  match xs with
  | [] => Raise (ValueError "not enough values to unpack (expected 2, got 0)")
  | [_] => Raise (ValueError "not enough values to unpack (expected 2, got 1)")
  | [a; b] => Ok (a, b)
  | _ => Raise (ValueError "too many values to unpack (expected 2)")
  end.

(** A two-dimensional [numpy] array: its shape is part of the value, so
    an array without rows still has a number of columns. *)
Record ndarray2 : Type := {
  nrows : nat;
  ncols : nat;
  rows : list (list Q)
}.

(** The entries of column [j], one per row. *)
Definition column_values (a : ndarray2) (j : nat) : list Q :=
  map (fun r => nth j r 0%Q) (rows a).

(** [a[:, j]] for a non-negative constant [j]: an index beyond the last
    column raises, whatever the number of rows. *)
Definition column (a : ndarray2) (j : nat) : res (list Q) :=
  if decide (j < ncols a)%nat
  then Ok (column_values a j)
  else Raise (IndexError j (ncols a)).

Definition Qsum (l : list Q) : Q := fold_right Qplus 0%Q l.

(** [np.mean] of a vector (the quotient [0/0] of an empty vector, a NaN in
    numpy, is [0] here). *)
Definition np_mean (l : list Q) : Q :=
  (Qsum l / inject_Z (Z.of_nat (length l)))%Q.

End Py.

Import Py.

(** ** [mmaction/datasets/activitynet_dataset.py] *)

Module ActivityNet.

(** One entry of [video_info['annotations']]:
    [{"segment": [start, end], "label": name}]. *)
Record annotation : Type := {
  ann_segment : list Q;
  ann_label : string
}.

(** A record of the dataset ([self.records]); only the keys read by the
    evaluation code are kept. *)
Record video_info : Type := {
  info_video_name : string;
  info_annotations : list annotation
}.

(** One entry of [result['proposal_list']]:
    [dict(segment=[start, end], score=s)]. *)
Record proposal : Type := {
  prop_segment : list Q;
  prop_score : Q
}.

(** What [np.savetxt] is handed as the data to write: an array, or a
    [str]. *)
Inductive pyobj : Type :=
| ObjArray (a : list (list Q))
| ObjStr (s : string).

(** An element of [results].  The proposal code reads it as a dict with the
    keys ['video_name'] and ['proposal_list']; the csv branch of
    [dump_results] unpacks it as a pair [(video_name, outputs)].  A tuple
    of any other make, say of three items, is a [ResultTuple]. *)
Inductive result : Type :=
| ResultDict (video_name : string) (proposal_list : list proposal)
| ResultPair (video_name : string) (outputs : pyobj)
| ResultTuple (items : list pyobj).

(** [result['video_name']] and [result['proposal_list']]. *)
Definition getitem_video_name (r : result) : res string :=
  match r with
  | ResultDict video_name _ => Ok video_name
  | ResultPair _ _ | ResultTuple _ =>
      Raise (TypeError "tuple indices must be integers or slices, not str")
  end.

Definition getitem_proposal_list (r : result) : res (list proposal) :=
  match r with
  | ResultDict _ proposal_list => Ok proposal_list
  | ResultPair _ _ | ResultTuple _ =>
      Raise (TypeError "tuple indices must be integers or slices, not str")
  end.

(** [video_name, outputs = result]: a pair unpacks into its components, a
    dict into its two keys; a tuple that has not two items raises the
    [ValueError] of the unpacking. *)
Definition unpack_result (r : result) : res (pyobj * pyobj) :=
  match r with
  | ResultPair video_name outputs => Ok (ObjStr video_name, outputs)
  | ResultDict _ _ => Ok (ObjStr "video_name", ObjStr "proposal_list")
  | ResultTuple items => unpack2 items
  end.

(** [video_name + '.csv']: only a [str] can be extended by a [str]. *)
Definition add_suffix (video_name : pyobj) (suffix : string) : res string :=
  match video_name with
  | ObjStr name => Ok (name +:+ suffix)
  | ObjArray _ =>
      Raise (TypeError
               "ufunc 'add' did not contain a loop with signature matching types")
  end.

(** Rows [[t_start, t_end, label]] and [[t_start, t_end, score]]; the
    [np.array] wrapped around the list of rows keeps the rows and their
    order. *)
Definition gt_row : Type := (Q * Q * string)%type.
Definition proposal_row : Type := (Q * Q * Q)%type.

Definition allowed_metrics : list string := ["AR@AN"].

(** *** [_import_ground_truth] *)

Definition gt_of_annotation (acc : list gt_row) (ann : annotation)
  : res (list gt_row) :=
  '(t_start, t_end) ← unpack2 (ann_segment ann);
  let label := ann_label ann in
  Ok (acc ++ [(t_start, t_end, label)]).

Definition gt_of_video (ground_truth : gmap string (list gt_row))
    (video_info : video_info) : res (gmap string (list gt_row)) :=
  let video_id := str_drop 2 (info_video_name video_info) in
  this_video_ground_truths ←
    for_each gt_of_annotation (info_annotations video_info) [];
  Ok (<[video_id := this_video_ground_truths]> ground_truth).

Definition _import_ground_truth (records : list video_info)
  : res (gmap string (list gt_row)) :=
  for_each gt_of_video records ∅.

(** *** [_import_proposals] *)

Definition row_of_proposal (st : list proposal_row * nat) (p : proposal)
  : res (list proposal_row * nat) :=
  let '(this_video_proposals, num_proposals) := st in
  '(t_start, t_end) ← unpack2 (prop_segment p);
  let score := prop_score p in
  Ok (this_video_proposals ++ [(t_start, t_end, score)], S num_proposals).

Definition proposals_of_result
    (st : gmap string (list proposal_row) * nat) (r : result)
  : res (gmap string (list proposal_row) * nat) :=
  let '(proposals, num_proposals) := st in
  video_name ← getitem_video_name r;
  let video_id := str_drop 2 video_name in
  proposal_list ← getitem_proposal_list r;
  '(this_video_proposals, num_proposals) ←
    for_each row_of_proposal proposal_list ([], num_proposals);
  Ok (<[video_id := this_video_proposals]> proposals, num_proposals).

Definition _import_proposals (results : list result)
  : res (gmap string (list proposal_row) * nat) :=
  for_each proposals_of_result results (∅, O).

(** *** [proposals2json] *)

(** The console output ([print], the optional progress bar) is not part of
    the modelled state, so [show_progress] has no effect on the value. *)
Definition json_of_result (result_dict : gmap string (list proposal))
    (r : result) : res (gmap string (list proposal)) :=
  video_name ← getitem_video_name r;
  proposal_list ← getitem_proposal_list r;
  Ok (<[str_drop 2 video_name := proposal_list]> result_dict).

Definition proposals2json (results : list result) (show_progress : bool)
  : res (gmap string (list proposal)) :=
  for_each json_of_result results ∅.

(** *** [dump_results] *)

(** The dict handed to [mmcv.dump] by the json branch. *)
Record output_dict : Type := {
  version : string;
  results : gmap string (list proposal);
  external_data : gmap string unit
}.

Definition default_version : string := "VERSION 1.3".

Definition unsupported_format (output_format : string) : exn :=
  ValueError ("The output format " +:+ output_format +:+ " is not supported.").

Section FileSystem.

(** The file system is a state threaded through [dump_results]; writes made
    before an exception stay.  The library calls that touch it are
    parameters: each returns the new state and either its value or the
    message of the exception it raised. *)
Variable fs : Type.
Variable mmcv_dump : output_dict -> string -> fs -> (string + unit) * fs.
Variable mmcv_load : string -> fs -> (string + output_dict) * fs.
Variable os_makedirs : string -> bool -> fs -> (string + unit) * fs.
Variable osp_join : string -> string -> string.
Variable np_savetxt :
  string -> pyobj -> string -> string -> string -> fs -> (string + unit) * fs.

Definition io (A : Type) : Type := fs -> res A * fs.

Definition io_ret {A : Type} (a : A) : io A := fun s => (Ok a, s).

Definition io_bind {A B : Type} (m : io A) (k : A -> io B) : io B :=
  fun s =>
    match m s with
    | (Ok a, s') => k a s'
    | (Raise e, s') => (Raise e, s')
    end.

Definition io_raise {A : Type} (e : exn) : io A := fun s => (Raise e, s).

(** A computation that does not touch the file system. *)
Definition pure {A : Type} (r : res A) : io A := fun s => (r, s).

(** A library call. *)
Definition call {A : Type} (f : fs -> (string + A) * fs) : io A :=
  fun s =>
    match f s with
    | (inr a, s') => (Ok a, s')
    | (inl msg, s') => (Raise (LibraryError msg), s')
    end.

#[local] Instance io_mret : MRet io := @io_ret.
#[local] Instance io_mbind : MBind io := fun A B k m => io_bind m k.

Fixpoint io_for_each {A : Type} (body : A -> io unit) (l : list A) : io unit :=
  match l with
  | [] => io_ret tt
  | x :: l' => _ ← body x; io_for_each body l'
  end.

(** The body of [for result in results] in the csv branch. *)
Definition csv_step (out header : string) (result : result) : io unit :=
  '(video_name, outputs) ← pure (unpack_result result);
  file_name ← pure (add_suffix video_name ".csv");
  let output_path := osp_join out file_name in
  call (np_savetxt output_path outputs header "," "").

Definition dump_results (results : list result)
    (out output_format version : string) : io unit :=
  if decide (output_format = "json") then
    result_dict ← pure (proposals2json results false);
    let output_dict :=
      {| version := version; results := result_dict; external_data := ∅ |} in
    call (mmcv_dump output_dict out)
  else if decide (output_format = "csv") then
    _ ← call (os_makedirs out true);
    let header := "action,start,end,tmin,tmax" in
    io_for_each (csv_step out header) results
  else
    io_raise (unsupported_format output_format).

End FileSystem.

(** *** [_evaluate] *)

Section Evaluate.

(** [average_recall_at_avg_proposals] of [mmaction/core/evaluation] is a
    parameter here: it returns
    [(recall, avg_recall, proposals_per_video, auc)] or raises. *)
Variable average_recall_at_avg_proposals :
  gmap string (list gt_row) -> gmap string (list proposal_row) -> nat ->
  Z -> list Q -> res (ndarray2 * list Q * list Q * Q).

Definition default_max_avg_proposals : Z := 100.

(** [np.linspace(0.5, 0.95, 10)] *)
Definition default_temporal_iou_thresholds : list Q :=
  map (fun i => (1 # 2) + inject_Z i * (1 # 20))%Q
      [0; 1; 2; 3; 4; 5; 6; 7; 8; 9]%Z.

(** The body of [for metric in metrics]. *)
Definition evaluate_metric (ground_truth : gmap string (list gt_row))
    (proposal : gmap string (list proposal_row)) (num_proposals : nat)
    (max_avg_proposals : Z) (temporal_iou_thresholds : list Q)
    (eval_results : gmap string Q) (metric : string)
  : res (gmap string Q) :=
  if decide (metric = "AR@AN") then
    '(recall, _, _, auc) ←
      average_recall_at_avg_proposals ground_truth proposal num_proposals
        max_avg_proposals temporal_iou_thresholds;
    let eval_results := <["auc" := auc]> eval_results in
    c ← column recall 0;
    let eval_results := <["AR@1" := np_mean c]> eval_results in
    c ← column recall 4;
    let eval_results := <["AR@5" := np_mean c]> eval_results in
    c ← column recall 9;
    let eval_results := <["AR@10" := np_mean c]> eval_results in
    c ← column recall 99;
    let eval_results := <["AR@100" := np_mean c]> eval_results in
    Ok eval_results
  else
    Ok eval_results.

(** [records] is [self.records]. *)
Definition _evaluate (records : list video_info) (results : list result)
    (metrics : list string) (max_avg_proposals : Z)
    (temporal_iou_thresholds : list Q) : res (gmap string Q) :=
  let eval_results : gmap string Q := ∅ in
  ground_truth ← _import_ground_truth records;
  '(proposal, num_proposals) ← _import_proposals results;
  for_each
    (evaluate_metric ground_truth proposal num_proposals max_avg_proposals
       temporal_iou_thresholds)
    metrics eval_results.

End Evaluate.

(** *** Vocabulary of the statements about this module *)

(** The key under which a video is filed: [video_name[2:]]. *)
Definition video_id (video_name : string) : string := str_drop 2 video_name.

(** The video name a result carries, as a dict or as a pair (a tuple of
    another make carries none). *)
Definition result_video_name (r : result) : string :=
  match r with
  | ResultDict video_name _ => video_name
  | ResultPair video_name _ => video_name
  | ResultTuple _ => ""
  end.

(** A result as the proposal code expects it: a dict whose proposals all
    have a two-element segment. *)
Definition two_element_segment (p : proposal) : bool :=
  Nat.eqb (length (prop_segment p)) 2.

Definition well_formed (r : result) : bool :=
  match r with
  | ResultDict _ proposal_list => forallb two_element_segment proposal_list
  | ResultPair _ _ | ResultTuple _ => false
  end.

(** The [(t_start, t_end, score)] triple of a proposal. *)
Definition triple_of (p : proposal) : proposal_row :=
  match prop_segment p with
  | [t_start; t_end] => (t_start, t_end, prop_score p)
  | _ => (0%Q, 0%Q, prop_score p)
  end.

Definition triples_of (r : result) : list proposal_row :=
  match r with
  | ResultDict _ proposal_list => map triple_of proposal_list
  | ResultPair _ _ | ResultTuple _ => []
  end.

Definition proposal_count (r : result) : nat :=
  match r with
  | ResultDict _ proposal_list => length proposal_list
  | ResultPair _ _ | ResultTuple _ => O
  end.

Definition total_proposal_count (results : list result) : nat :=
  fold_right Nat.add O (map proposal_count results).

(** Filing the triples of a result under its video id. *)
Definition file_result (m : gmap string (list proposal_row)) (r : result)
  : gmap string (list proposal_row) :=
  <[video_id (result_video_name r) := triples_of r]> m.

(** What one pass of the ['AR@AN'] branch of [_evaluate] leaves in
    [eval_results]. *)
Definition ar_an_report (recall : ndarray2) (auc : Q)
    (eval_results : gmap string Q) : gmap string Q :=
  <["AR@100" := np_mean (column_values recall 99)]>
    (<["AR@10" := np_mean (column_values recall 9)]>
       (<["AR@5" := np_mean (column_values recall 4)]>
          (<["AR@1" := np_mean (column_values recall 0)]>
             (<["auc" := auc]> eval_results)))).

(** An in-memory file system, on which the statements about
    [dump_results] can be run: a file holds what was written to it. *)
Definition mem_fs : Type := gmap string (output_dict + pyobj).

Definition mem_dump (d : output_dict) (path : string) (s : mem_fs)
  : (string + unit) * mem_fs :=
  (inr tt, <[path := inl d]> s).


Definition mem_makedirs (path : string) (exist_ok : bool) (s : mem_fs)
  : (string + unit) * mem_fs :=
  (inr tt, s).

Definition mem_join (a b : string) : string := a +:+ "/" +:+ b.

Definition mem_savetxt (path : string) (x : pyobj)
    (header delimiter comments : string) (s : mem_fs)
  : (string + unit) * mem_fs :=
  (inr tt, <[path := inr x]> s).

(** *** Sample data *)

Definition sample_records : list video_info :=
  [ {| info_video_name := "v_--1DO2V4K74";
       info_annotations :=
         [ {| ann_segment := [30 # 1; 205 # 1]%Q;
              ann_label := "Rock climbing" |} ] |};
    {| info_video_name := "v_--6bJUbfpnQ";
       info_annotations :=
         [ {| ann_segment := [5 # 2; 25 # 1]%Q;
              ann_label := "Drinking beer" |} ] |} ].

Definition sample_results : list result :=
  [ ResultDict "v_--6bJUbfpnQ"
      [ {| prop_segment := [3 # 1; 24 # 1]%Q; prop_score := 9 # 10 |};
        {| prop_segment := [50 # 1; 129 # 1]%Q; prop_score := 6 # 10 |} ];
    ResultDict "v_--1DO2V4K74"
      [ {| prop_segment := [28 # 1; 200 # 1]%Q; prop_score := 8 # 10 |} ] ].

(** Two results for one video: the second has no proposal. *)
Definition repeated_results : list result :=
  [ ResultDict "v_a"
      [ {| prop_segment := [1 # 1; 2 # 1]%Q; prop_score := 9 # 10 |} ];
    ResultDict "v_a" [] ].

(** No result after position [i] is filed under the key of [r]. *)
Definition last_of_its_video (results : list result) (i : nat) (r : result)
  : Prop :=
  forall j r', (i < j)%nat -> results !! j = Some r' ->
               video_id (result_video_name r') <> video_id (result_video_name r).

(** *** [_load_annotations] *)

(** The annotation file once loaded: a dict from video name to the
    information on the video, in the order of the file.  Of that
    information only the key ['annotations'] is kept, as in
    [video_info]. *)
Definition anno_database : Type := list (string * list annotation).

(** An element of the returned [video_infos]: the information on the
    video with the keys ['video_name'] and ['data_prefix'] set. *)
Record loaded_info : Type := {
  loaded_video_name : string;
  loaded_data_prefix : option string;
  loaded_annotations : list annotation
}.

Section LoadAnnotations.

(** [mmcv.load(ann_file)]: the database, or the message of the exception
    raised. *)
Variable mmcv_load_annotations : string -> string + anno_database.

(** The body of [for video_name in anno_database], on the pair of
    [video_name] and [anno_database[video_name]]. *)
Definition load_video_info (data_prefix : option string)
    (video_infos : list loaded_info) (item : string * list annotation)
  : res (list loaded_info) :=
  let '(video_name, video_info) := item in
  let video_info :=
    {| loaded_video_name := video_name;
       loaded_data_prefix := data_prefix;
       loaded_annotations := video_info |} in
  Ok (video_infos ++ [video_info]).

Definition _load_annotations (ann_file : string)
    (data_prefix : option string) : res (list loaded_info) :=
  match mmcv_load_annotations ann_file with
  | inl msg => Raise (LibraryError msg)
  | inr anno_database =>
      for_each (load_video_info data_prefix) anno_database []
  end.

End LoadAnnotations.

(** The information made of one item of the database. *)
Definition loaded_of (data_prefix : option string)
    (item : string * list annotation) : loaded_info :=
  {| loaded_video_name := fst item;
     loaded_data_prefix := data_prefix;
     loaded_annotations := snd item |}.

(** The keys of a loaded information that the evaluation code reads. *)
Definition record_of (i : loaded_info) : video_info :=
  {| info_video_name := loaded_video_name i;
     info_annotations := loaded_annotations i |}.

(** *** The [metrics] argument *)

(** [metrics] is a [str] or a sequence of [str]; [for metric in metrics]
    goes over the characters of a [str], each a one-character string. *)
Inductive metrics_arg : Type :=
| MetricsStr (s : string)
| MetricsSeq (names : list string).

Definition iter_metrics (metrics : metrics_arg) : list string :=
  match metrics with
  | MetricsStr s =>
      map (fun c => String c EmptyString) (String.list_ascii_of_string s)
  | MetricsSeq names => names
  end.

(** The default of [_evaluate]: [metrics='AR@AN']. *)
Definition default_metrics : metrics_arg := MetricsStr "AR@AN".

(** *** More vocabulary *)

Definition two_element_annotation (ann : annotation) : bool :=
  Nat.eqb (length (ann_segment ann)) 2.

(** A record whose annotations all have a two-element segment. *)
Definition well_formed_record (v : video_info) : bool :=
  forallb two_element_annotation (info_annotations v).

(** The [[t_start, t_end, label]] row of an annotation. *)
Definition gt_row_of (ann : annotation) : gt_row :=
  match ann_segment ann with
  | [t_start; t_end] => (t_start, t_end, ann_label ann)
  | _ => (0%Q, 0%Q, ann_label ann)
  end.

Definition gt_rows_of (v : video_info) : list gt_row :=
  map gt_row_of (info_annotations v).

(** Filing the rows of a record under its video id. *)
Definition file_record (m : gmap string (list gt_row)) (v : video_info)
  : gmap string (list gt_row) :=
  <[video_id (info_video_name v) := gt_rows_of v]> m.

(** No record after position [i] is filed under the key of [v]. *)
Definition last_record_of_its_video (records : list video_info) (i : nat)
    (v : video_info) : Prop :=
  forall j v', (i < j)%nat -> records !! j = Some v' ->
               video_id (info_video_name v') <> video_id (info_video_name v).

Definition is_dict (r : result) : bool :=
  match r with
  | ResultDict _ _ => true
  | ResultPair _ _ | ResultTuple _ => false
  end.

Definition proposal_list_of (r : result) : list proposal :=
  match r with
  | ResultDict _ proposal_list => proposal_list
  | ResultPair _ _ | ResultTuple _ => []
  end.

(** Filing the proposal list of a result under its video id. *)
Definition file_json (m : gmap string (list proposal)) (r : result)
  : gmap string (list proposal) :=
  <[video_id (result_video_name r) := proposal_list_of r]> m.

(** The number of rows a mapping holds, over all its keys. *)
Definition stored_rows {A : Type} (m : gmap string (list A)) : nat :=
  map_fold (fun _ rows acc => (length rows + acc)%nat) O m.

(** The keys [_evaluate] reports for ['AR@AN']. *)
Definition ar_an_keys : gset string :=
  {[ "auc"; "AR@1"; "AR@5"; "AR@10"; "AR@100" ]}.

(** Records and results with one malformed segment each. *)
Definition malformed_records : list video_info :=
  [ {| info_video_name := "v_a";
       info_annotations :=
         [ {| ann_segment := [1 # 1]%Q; ann_label := "run" |} ] |} ].

Definition malformed_results : list result :=
  [ ResultDict "v_a"
      [ {| prop_segment := [1 # 1; 2 # 1; 3 # 1]%Q; prop_score := 1 # 2 |} ] ].

Definition pair_results : list result :=
  [ ResultPair "v_a" (ObjArray [[0; 1 # 1; 2 # 1]%Q]);
    ResultPair "v_b" (ObjArray [[1 # 1; 3 # 1; 4 # 1]%Q]) ].

Definition sample_database : anno_database :=
  [ ("v_--1DO2V4K74",
     [ {| ann_segment := [30 # 1; 205 # 1]%Q;
          ann_label := "Rock climbing" |} ]);
    ("v_--6bJUbfpnQ",
     [ {| ann_segment := [5 # 2; 25 # 1]%Q;
          ann_label := "Drinking beer" |} ]) ].

End ActivityNet.

(** ** [mmaction/models/necks/video_aligner.py] *)

Module VideoAligner.

Section Neck.

(** Tensors and the layers applied to them are torch objects: the
    sub-modules built by [__init__] ([spatial_pool], [mapper]) and
    [normalize] of [core.ops] are parameters.  A layer gives a tensor, or
    the message of the error it raises when it rejects its input. *)
Variable tensor : Type.
Variable spatial_pool : tensor -> string + tensor.
Variable mapper : tensor -> string + tensor.
Variable normalize : tensor -> Z -> string + tensor.

(** Running a layer inside [forward]. *)
Definition layer (r : string + tensor) : res tensor :=
  match r with
  | inr y => Ok y
  | inl msg => Raise (LibraryError msg)
  end.

(** The attributes of the module; [training] is the flag of [nn.Module]. *)
Record t : Type := {
  in_channels : Z;
  spatial_size : Z * Z;
  temporal_size : Z;
  hidden_size : Z;
  embd_size : Z;
  training : bool
}.

(** [__init__]: an integer [spatial_size] stands for a square; a fresh
    [nn.Module] is in training mode. *)
Definition init (in_channels : Z) (spatial_size : Z + Z * Z)
    (temporal_size hidden_size embedding_size : Z) : t :=
  {| in_channels := in_channels;
     spatial_size :=
       match spatial_size with
       | inl n => (n, n)
       | inr size => size
       end;
     temporal_size := temporal_size;
     hidden_size := hidden_size;
     embd_size := embedding_size;
     training := true |}.

(** [dict(temporal_embd=...)], where [None] is a possible value. *)
Record extra_data : Type := { temporal_embd : option tensor }.

(** [forward] returns either [x] or the pair [(x, extra_data)]. *)
Inductive output : Type :=
| Plain (x : tensor)
| WithExtra (x : tensor) (extra : extra_data).

Definition forward (self : t) (x : tensor) (return_extra_data : bool)
  : res output :=
  let temporal_embd : option tensor := None in
  temporal_embd ←
    (if negb (training self) then
       y ← layer (spatial_pool x);
       y ← layer (mapper y);
       temporal_embd ← layer (normalize y 1);
       Ok (Some temporal_embd)
     else Ok temporal_embd);
  (* returns the input unchanged *)
  if return_extra_data
  then Ok (WithExtra x {| temporal_embd := temporal_embd |})
  else Ok (Plain x).



Definition extra_of (o : output) : option extra_data :=
  match o with
  | Plain _ => None
  | WithExtra _ extra => Some extra
  end.

End Neck.

Section Loss.

Variable tensor : Type.

(** [temporal_embd.view(-1, embd_size, temporal_size)]: the reshaped
    tensor, or the message of the error torch raises when the sizes do
    not fit. *)
Variable view : tensor -> Z -> Z -> Z -> string + tensor.

(** [loss]: the dict of loss terms.  The types of [labels] and
    [dataset_id] do not matter to it. *)
Definition loss {L D : Type} (self : t) (temporal_embd : option tensor)
    (labels : option L) (dataset_id : option D)
  : res (gmap string tensor) :=
  match temporal_embd, labels, dataset_id with
  | Some temporal_embd, Some _, Some _ =>
      match view temporal_embd (-1) (embd_size self) (temporal_size self) with
      | inl msg => Raise (LibraryError msg)
      | inr temporal_embd =>
          let losses : gmap string tensor := ∅ in
          Ok losses
      end
  | _, _, _ => Ok ∅
  end.

End Loss.

(** *** The layers on shapes

    A tensor seen through its shape only, [[N; C; T; H; W]] for a batch:
    what each layer of the neck makes of a shape, and the inputs it
    rejects. *)
Definition shape : Type := list Z.

(** [nn.AvgPool3d((1,) + spatial_size, stride=1, padding=0)], on a batch
    or on a single clip: the window must fit. *)
Definition avg_pool_shape (self : t) (x : shape) : string + shape :=
  let '(kh, kw) := spatial_size self in
  match x with
  | [n; c; d; h; w] =>
      if ((1 <=? d) && (kh <=? h) && (kw <=? w))%Z
      then inr [n; c; d; h - kh + 1; w - kw + 1]%Z
      else inl "Output size is too small"
  | [c; d; h; w] =>
      if ((1 <=? d) && (kh <=? h) && (kw <=? w))%Z
      then inr [c; d; h - kh + 1; w - kw + 1]%Z
      else inl "Output size is too small"
  | _ => inl "non-empty 4D or 5D (batch mode) tensor expected for input"
  end.

(** The two 1x1x1 convolutions with their batch normalisation: a batch
    with [in_channels] channels comes out with [embd_size] channels. *)
Definition mapper_shape (self : t) (x : shape) : string + shape :=
  match x with
  | [n; c; d; h; w] =>
      if (c =? in_channels self)%Z
      then inr [n; embd_size self; d; h; w]
      else inl "the number of input channels does not match"
  | _ => inl "expected 5D input"
  end.

(** [normalize(y, dim)] keeps the shape; [dim] must be one of its axes. *)
Definition normalize_shape (y : shape) (dim : Z) : string + shape :=
  if ((- Z.of_nat (length y) <=? dim) && (dim <? Z.of_nat (length y)))%Z
  then inr y
  else inl "Dimension out of range".

(** A neck for 960 channels and a 7 x 7 window, put in evaluation mode. *)
Definition eval_neck : t :=
  {| in_channels := 960; spatial_size := (7, 7)%Z; temporal_size := 1;
     hidden_size := 512; embd_size := 256; training := false |}.

End VideoAligner.

(** ** Metric functions of [mmaction/core/evaluation]

    [mmaction/core/evaluation/__init__.py] re-exports these functions from
    [accuracy.py], whose text is not among the sources at hand; they are
    written here after the specification of the metric component. *)

Module Accuracy.

(** Stable insertion sort: of two elements that compare equal, the one
    that comes first in the input comes first in the output. *)
Fixpoint insert_by {A : Type} (leb : A -> A -> bool) (x : A) (l : list A)
  : list A :=
  match l with
  | [] => [x]
  | y :: l' => if leb x y then x :: y :: l' else y :: insert_by leb x l'
  end.

Definition sort_by {A : Type} (leb : A -> A -> bool) (l : list A) : list A :=
  fold_right (insert_by leb) [] l.

(** *** Top-k accuracy *)

(** Modelled from the spec: the class indices of one score row, from the
    highest score to the lowest, ties in stable order ([accuracy.py] is
    missing). *)
Definition ranked_classes (row : list Q) : list nat :=
  sort_by (fun i j => Qle_bool (nth j row 0%Q) (nth i row 0%Q))
          (seq 0 (length row)).

(** Modelled from the spec: the [k] highest-scoring classes of a row
    ([accuracy.py] is missing). *)
Definition top_k (k : nat) (row : list Q) : list nat :=
  firstn k (ranked_classes row).

(** Modelled from the spec: whether the true label of a sample is among
    its [k] highest-scoring classes ([accuracy.py] is missing). *)
Definition hit (k : nat) (sample : list Q * nat) : bool :=
  existsb (Nat.eqb (snd sample)) (top_k k (fst sample)).

(** Modelled from the spec: the fraction of the samples that are hits; the
    quotient of an empty sample list is [0/0], which is [0] in [Q]
    ([accuracy.py] is missing). *)
Definition hit_fraction (k : nat) (samples : list (list Q * nat)) : Q :=
  (inject_Z (Z.of_nat (length (filter (fun s => hit k s = true) samples)))
   / inject_Z (Z.of_nat (length samples)))%Q.

(** Modelled from the spec: [top_k_accuracy(scores, labels, topk)], for
    each [k] in [topk] the fraction of samples whose true label is among
    the [k] highest-scoring classes; mismatched shapes fail with a
    shape-mismatch error ([accuracy.py] is missing). *)
Definition top_k_accuracy (scores : list (list Q)) (labels : list nat)
    (topk : list nat) : res (list Q) :=
  if decide (length scores = length labels) then
    Ok (map (fun k => hit_fraction k (combine scores labels)) topk)
  else
    Raise (ValueError "shape mismatch between scores and labels").

(** *** Temporal intersection over union *)

Definition segment : Type := (Q * Q)%type.

(** Modelled from the spec: intersection-over-union of two time
    intervals, zero when they do not overlap ([accuracy.py] is
    missing). *)
Definition temporal_iou (a b : segment) : Q :=
  let intersection :=
    Qmax 0 (Qmin (snd a) (snd b) - Qmax (fst a) (fst b))%Q in
  let union := ((snd a - fst a) + (snd b - fst b) - intersection)%Q in
  (intersection / union)%Q.

(** Modelled from the spec: [pairwise_temporal_iou(segments_a,
    segments_b)], the |A| x |B| matrix of intersection-over-union
    ([accuracy.py] is missing). *)
Definition pairwise_temporal_iou (segments_a segments_b : list segment)
  : list (list Q) :=
  map (fun a => map (fun b => temporal_iou a b) segments_b) segments_a.

(** Entry [(i, j)] of a matrix given by its rows. *)
Definition entry (m : list (list Q)) (i j : nat) : option Q :=
  row ← m !! i; row !! j.

Definition non_degenerate (s : segment) : Prop := (fst s < snd s)%Q.

Definition non_overlapping (a b : segment) : Prop :=
  (snd a <= fst b)%Q \/ (snd b <= fst a)%Q.

(** *** Average recall at an average number of proposals *)

Abbreviation gt_row := ActivityNet.gt_row.
Abbreviation proposal_row := ActivityNet.proposal_row.

Definition gt_segment (g : gt_row) : segment := fst g.
Definition proposal_segment (p : proposal_row) : segment := fst p.
Definition proposal_score (p : proposal_row) : Q := snd p.

(** Modelled from the spec: the proposals of one video ranked by score,
    best first ([accuracy.py] is missing). *)
Definition ranked (video_proposals : list proposal_row) : list proposal_row :=
  sort_by (fun p q => Qle_bool (proposal_score q) (proposal_score p))
          video_proposals.

(** Modelled from the spec: ranked proposals truncated to the budget
    ([accuracy.py] is missing). *)
Definition retrieved (budget : nat) (video_proposals : list proposal_row)
  : list segment :=
  firstn budget (map proposal_segment (ranked video_proposals)).

(** Modelled from the spec: the ground-truth segments a proposal may
    still take in the one-to-one assignment, those not matched yet that
    overlap it by at least the threshold ([accuracy.py] is missing). *)
Definition candidates (threshold : Q) (gts : list segment)
    (matched : list nat) (p : segment) : list nat :=
  filter
    (fun j => negb (existsb (Nat.eqb j) matched)
              && Qle_bool threshold (temporal_iou p (nth j gts (0, 0)%Q)))
    (seq 0 (length gts)).

(** Modelled from the spec: the greedy choice among the candidates, the
    one of highest overlap, the first of them on a tie ([accuracy.py] is
    missing). *)
Definition best_candidate (gts : list segment) (p : segment)
    (cands : list nat) : option nat :=
  fold_left
    (fun acc j =>
       match acc with
       | None => Some j
       | Some b =>
           if Qle_bool (temporal_iou p (nth j gts (0, 0)%Q))
                       (temporal_iou p (nth b gts (0, 0)%Q))
           then Some b else Some j
       end)
    cands None.

(** Modelled from the spec: one step of the greedy one-to-one assignment;
    [matched] lists the ground-truth segments already taken
    ([accuracy.py] is missing). *)
Definition assign (threshold : Q) (gts : list segment) (matched : list nat)
    (p : segment) : list nat :=
  match best_candidate gts p (candidates threshold gts matched p) with
  | Some j => j :: matched
  | None => matched
  end.

(** Modelled from the spec: IoU matching of the retrieved proposals
    against the ground truth of one video, in rank order
    ([accuracy.py] is missing). *)
Definition greedy_matches (threshold : Q) (gts : list segment)
    (props : list segment) : list nat :=
  fold_left (assign threshold gts) props [].

(** Modelled from the spec: the number of ground-truth segments of one
    video matched within the budget ([accuracy.py] is missing). *)
Definition video_matches (threshold : Q) (budget : nat)
    (gts : list gt_row) (video_proposals : list proposal_row) : nat :=
  length (greedy_matches threshold (map gt_segment gts)
            (retrieved budget video_proposals)).

Definition nat_sum (l : list nat) : nat := fold_right Nat.add O l.

(** Modelled from the spec: recall at one threshold and one budget, the
    matched ground-truth segments over all ground-truth segments; a video
    without proposals or without ground truth contributes no match
    ([accuracy.py] is missing). *)
Definition recall_at (ground_truth : gmap string (list gt_row))
    (proposals : gmap string (list proposal_row)) (threshold : Q)
    (budget : nat) : Q :=
  let videos := map_to_list ground_truth in
  let matches :=
    nat_sum (map (fun v => video_matches threshold budget (snd v)
                             (default [] (proposals !! fst v))) videos) in
  let positives := nat_sum (map (fun v => length (snd v)) videos) in
  (inject_Z (Z.of_nat matches) / inject_Z (Z.of_nat positives))%Q.

(** Modelled from the spec: recall averaged over the IoU thresholds
    ([accuracy.py] is missing). *)
Definition average_recall_at (ground_truth : gmap string (list gt_row))
    (proposals : gmap string (list proposal_row))
    (temporal_iou_thresholds : list Q) (budget : nat) : Q :=
  np_mean (map (fun thr => recall_at ground_truth proposals thr budget)
               temporal_iou_thresholds).

(** Modelled from the spec: the sweep of proposal-count budgets,
    [1 .. max_avg_proposals] ([accuracy.py] is missing). *)
Definition budgets (max_avg_proposals : Z) : list nat :=
  seq 1 (Z.to_nat max_avg_proposals).

(** Modelled from the spec: the area under a curve sampled at unit
    steps, by the trapezoidal rule ([accuracy.py] is missing). *)
Fixpoint trapz (ys : list Q) : Q :=
  match ys with
  | y1 :: ((y2 :: _) as rest) => ((y1 + y2) / 2 + trapz rest)%Q
  | _ => 0%Q
  end.

(** Modelled from the spec: [average_recall_at_avg_proposals(ground_truth,
    proposals, num_proposals, max_avg_proposals,
    temporal_iou_thresholds)], the recall curves over the sweep of budgets
    and thresholds, their average over the thresholds, the budgets, and
    the area under the averaged curve.  The specification gives
    [num_proposals] no part in the computation ([accuracy.py] is
    missing). *)
Definition average_recall_at_avg_proposals
    (ground_truth : gmap string (list gt_row))
    (proposals : gmap string (list proposal_row)) (num_proposals : nat)
    (max_avg_proposals : Z) (temporal_iou_thresholds : list Q)
  : ndarray2 * list Q * list Q * Q :=
  let bs := budgets max_avg_proposals in
  let recall :=
    {| nrows := length temporal_iou_thresholds;
       ncols := length bs;
       rows := map (fun thr => map (recall_at ground_truth proposals thr) bs)
                   temporal_iou_thresholds |} in
  let avg_recall :=
    map (average_recall_at ground_truth proposals temporal_iou_thresholds)
        bs in
  let proposals_per_video := map (fun b => inject_Z (Z.of_nat b)) bs in
  (recall, avg_recall, proposals_per_video, trapz avg_recall).

(** The same function in the calling convention of
    [ActivityNetDataset._evaluate]. *)
Definition average_recall_call (ground_truth : gmap string (list gt_row))
    (proposals : gmap string (list proposal_row)) (num_proposals : nat)
    (max_avg_proposals : Z) (temporal_iou_thresholds : list Q)
  : res (ndarray2 * list Q * list Q * Q) :=
  Ok (average_recall_at_avg_proposals ground_truth proposals num_proposals
        max_avg_proposals temporal_iou_thresholds).

(** The example of the specification: one video, one ground-truth
    segment, one proposal. *)
Definition example_ground_truth : gmap string (list gt_row) :=
  {[ "v1" := [(0, 10, "run")%Q] ]}.

Definition example_proposals : gmap string (list proposal_row) :=
  {[ "v1" := [(1, 9, 9 # 10)%Q] ]}.

(** The same video with a best-scored proposal that misses and a second
    one that hits. *)
Definition late_hit_proposals : gmap string (list proposal_row) :=
  {[ "v1" := [(1, 9, 8 # 10)%Q; (20, 30, 9 # 10)%Q] ]}.

(** The [avg_recall] component of the result. *)
Definition avg_recall_of (r : ndarray2 * list Q * list Q * Q) : list Q :=
  snd (fst (fst r)).

(** A curve that never goes down. *)
Definition non_decreasing (ys : list Q) : Prop :=
  forall i j x y, (i <= j)%nat -> ys !! i = Some x -> ys !! j = Some y ->
                  (x <= y)%Q.

End Accuracy.

(** * Properties *)

(** ** Loops *)

Lemma for_each_cons {A S : Type} (body : S -> A -> res S) (x : A)
    (l : list A) (s : S) :
  for_each body (x :: l) s = (s' ← body s x; for_each body l s').
Proof. reflexivity. Qed.

Lemma for_each_app {A S : Type} (body : S -> A -> res S) (l1 l2 : list A)
    (s : S) :
  for_each body (l1 ++ l2) s = (s' ← for_each body l1 s; for_each body l2 s').
Proof.
  revert s. induction l1 as [|x l1 IH]; intros s; simpl; [reflexivity|].
  destruct (body s x) as [s'|e]; simpl; [apply IH|reflexivity].
Qed.

Lemma for_each_id {A S : Type} (body : S -> A -> res S) (l : list A) (s : S) :
  (forall x s0, x ∈ l -> body s0 x = Ok s0) -> for_each body l s = Ok s.
Proof.
  induction l as [|x l IH]; intros Hid; simpl; [reflexivity|].
  rewrite Hid by left. simpl. apply IH. intros y s0 Hy. apply Hid. by right.
Qed.

(** ** The ActivityNet dataset wrapper *)

Module ActivityNetFacts.

Import ActivityNet.

(** The inner loop of [_import_proposals] appends one triple per proposal
    and counts it. *)
Lemma row_loop (proposal_list : list proposal) (acc : list proposal_row)
    (n : nat) :
  forallb two_element_segment proposal_list = true ->
  for_each row_of_proposal proposal_list (acc, n)
  = Ok (acc ++ map triple_of proposal_list, (n + length proposal_list)%nat).
Proof.
  revert acc n. induction proposal_list as [|p pl IH]; intros acc n Hwf; simpl.
  - by rewrite app_nil_r, Nat.add_0_r.
  - simpl in Hwf. apply andb_prop in Hwf as [Hp Hpl].
    unfold two_element_segment in Hp. unfold triple_of at 1.
    destruct (prop_segment p) as [|a [|b [|c ?]]] eqn:Hs; try discriminate.
    simpl. rewrite IH by done.
    by rewrite <- app_assoc, Nat.add_succ_r.
Qed.

Lemma import_loop (results : list result)
    (m : gmap string (list proposal_row)) (n : nat) :
  forallb well_formed results = true ->
  for_each proposals_of_result results (m, n)
  = Ok (fold_left file_result results m, (n + total_proposal_count results)%nat).
Proof.
  revert m n. induction results as [|r rs IH]; intros m n Hwf; simpl.
  - by rewrite Nat.add_0_r.
  - simpl in Hwf. apply andb_prop in Hwf as [Hr Hrs].
    destruct r as [video_name proposal_list| |]; [|discriminate..]. simpl in *.
    rewrite row_loop by done. simpl. rewrite IH by done.
    unfold total_proposal_count. simpl. by rewrite Nat.add_assoc.
Qed.

Lemma lookup_fold_file_other (results : list result)
    (m : gmap string (list proposal_row)) (k : string) :
  (forall r, r ∈ results -> video_id (result_video_name r) <> k) ->
  fold_left file_result results m !! k = m !! k.
Proof.
  revert m. induction results as [|r rs IH]; intros m Hne; simpl; [done|].
  rewrite IH by (intros r' Hr'; apply Hne; by right).
  unfold file_result. apply lookup_insert_ne. apply Hne. by left.
Qed.

Lemma lookup_fold_file_last (results : list result)
    (m : gmap string (list proposal_row)) (i : nat) (r : result) :
  results !! i = Some r ->
  last_of_its_video results i r ->
  fold_left file_result results m !! video_id (result_video_name r)
  = Some (triples_of r).
Proof.
  revert m i. induction results as [|r0 rs IH]; intros m i Hi Hlast; [done|].
  destruct i as [|i]; simpl in *.
  - injection Hi as ->. rewrite lookup_fold_file_other.
    + unfold file_result. apply lookup_insert_eq.
    + intros r' Hr'. apply list_elem_of_lookup in Hr' as [j Hj].
      apply (Hlast (S j)); [lia|done].
  - apply (IH _ i); [done|]. intros j r' Hij Hj.
    apply (Hlast (S j)); [lia|done].
Qed.

(** C8 (amended).  For every results list made of dicts whose proposals
    have two-element segments, [_import_proposals] returns
    [(proposals, num_proposals)] where [num_proposals] is the number of
    proposal entries summed over all results, and [proposals] maps the
    video id of every result that is the last one filed under that id to
    exactly the list of its [(t_start, t_end, score)] triples, in order. *)
Theorem import_proposals_last_writer (results : list result) :
  forallb well_formed results = true ->
  exists proposals,
    _import_proposals results = Ok (proposals, total_proposal_count results)
    /\ forall i r,
        results !! i = Some r -> last_of_its_video results i r ->
        proposals !! video_id (result_video_name r) = Some (triples_of r).
Proof.
  intros Hwf. exists (fold_left file_result results ∅). split.
  - unfold _import_proposals. by rewrite import_loop.
  - intros i r Hi Hlast. by apply lookup_fold_file_last with i.
Qed.

Lemma import_proposals_last_writer_witness :
  forallb well_formed sample_results = true
  /\ exists proposals,
      _import_proposals sample_results
      = Ok (proposals, total_proposal_count sample_results)
      /\ forall i r,
          sample_results !! i = Some r ->
          last_of_its_video sample_results i r ->
          proposals !! video_id (result_video_name r) = Some (triples_of r).
Proof.
  split; [reflexivity|].
  apply (import_proposals_last_writer sample_results). reflexivity.
Defined.

(** C8 as stated fails when two results share a video id: the later
    result overwrites the entry of the earlier one, whose triples are then
    not what the mapping holds. *)
Lemma import_proposals_overwrites :
  ~ exists proposals num_proposals,
      _import_proposals repeated_results = Ok (proposals, num_proposals)
      /\ forall r, r ∈ repeated_results ->
           proposals !! video_id (result_video_name r) = Some (triples_of r).
Proof.
  intros (proposals & n & Himp & Hall).
  assert (Hrun : _import_proposals repeated_results
                 = Ok (<["a" := []]> (<["a" := [(1 # 1, 2 # 1, 9 # 10)%Q]]> ∅), 1%nat))
    by reflexivity.
  rewrite Hrun in Himp. injection Himp as Hm Hn. subst proposals.
  assert (Hin : ResultDict "v_a"
      [ {| prop_segment := [1 # 1; 2 # 1]%Q; prop_score := 9 # 10 |} ]
      ∈ repeated_results) by left.
  apply Hall in Hin. simpl in Hin. unfold video_id in Hin. simpl in Hin.
  rewrite lookup_insert_eq in Hin. discriminate Hin.
Qed.

(** The keys of the mappings are the video ids of the records, resp. of
    the results. *)
Lemma import_ground_truth_dom (records : list video_info)
    (m m' : gmap string (list gt_row)) :
  for_each gt_of_video records m = Ok m' ->
  dom m' = dom m ∪ list_to_set (map (fun v => video_id (info_video_name v)) records).
Proof.
  revert m. induction records as [|v vs IH]; intros m Hrun.
  - injection Hrun as <-. set_solver.
  - rewrite for_each_cons in Hrun.
    destruct (gt_of_video m v) as [m1|e] eqn:Hv; [|discriminate].
    simpl in Hrun. apply IH in Hrun. unfold gt_of_video in Hv.
    destruct (for_each gt_of_annotation (info_annotations v) []) as [rows|e];
      [|discriminate].
    injection Hv as <-. rewrite Hrun, dom_insert_L. unfold video_id. simpl.
    set_solver.
Qed.

Lemma import_proposals_dom (results : list result)
    (m m' : gmap string (list proposal_row)) (n n' : nat) :
  for_each proposals_of_result results (m, n) = Ok (m', n') ->
  dom m' = dom m ∪ list_to_set (map (fun r => video_id (result_video_name r)) results).
Proof.
  revert m n. induction results as [|r rs IH]; intros m n Hrun.
  - injection Hrun as <- <-. set_solver.
  - rewrite for_each_cons in Hrun.
    destruct (proposals_of_result (m, n) r) as [[m1 n1]|e] eqn:Hr;
      [|discriminate].
    simpl in Hrun. apply IH in Hrun.
    destruct r as [video_name proposal_list| |]; [|discriminate..].
    simpl in Hr.
    destruct (for_each row_of_proposal proposal_list ([], n)) as [[rows k]|e];
      [|discriminate].
    injection Hr as <- <-. rewrite Hrun, dom_insert_L. unfold video_id. simpl.
    set_solver.
Qed.

(** C7.  When the records of the dataset and the inference results carry
    the same set of video names, the mapping returned by
    [_import_ground_truth] and the mapping returned by [_import_proposals]
    have the same key set: both file a video under its name without the
    first two characters. *)
Theorem import_key_sets_agree (records : list video_info)
    (results : list result) (ground_truth : gmap string (list gt_row))
    (proposals : gmap string (list proposal_row)) (num_proposals : nat) :
  (forall name, name ∈ map info_video_name records
                <-> name ∈ map result_video_name results) ->
  _import_ground_truth records = Ok ground_truth ->
  _import_proposals results = Ok (proposals, num_proposals) ->
  dom ground_truth = dom proposals.
Proof.
  intros Hnames Hgt Hprop.
  apply import_ground_truth_dom in Hgt. apply import_proposals_dom in Hprop.
  rewrite Hgt, Hprop, !dom_empty_L. f_equal. apply set_eq. intros k.
  rewrite !elem_of_list_to_set.
  change (map (fun v => video_id (info_video_name v)) records)
    with (video_id ∘ info_video_name <$> records).
  change (map (fun r => video_id (result_video_name r)) results)
    with (video_id ∘ result_video_name <$> results).
  rewrite !list_fmap_compose, !(list_elem_of_fmap video_id).
  split; intros (name & -> & Hin); exists name; (split; [done|]);
    by apply Hnames.
Qed.

Lemma import_key_sets_agree_witness :
  dom (<["--6bJUbfpnQ" := [(5 # 2, 25 # 1, "Drinking beer")%Q]]>
         (<["--1DO2V4K74" := [(30 # 1, 205 # 1, "Rock climbing")%Q]]>
            (∅ : gmap string (list gt_row))))
  = dom (fold_left file_result sample_results
           (∅ : gmap string (list proposal_row))).
Proof.
  apply (import_key_sets_agree sample_records sample_results _ _ 3%nat).
  - intros name. simpl. rewrite !elem_of_cons, !elem_of_nil. tauto.
  - reflexivity.
  - reflexivity.
Defined.

(** *** [_evaluate] *)

Section EvaluateFacts.

Variable average_recall_at_avg_proposals :
  gmap string (list gt_row) -> gmap string (list proposal_row) -> nat ->
  Z -> list Q -> res (ndarray2 * list Q * list Q * Q).

Variables (ground_truth : gmap string (list gt_row))
          (proposal : gmap string (list proposal_row))
          (num_proposals : nat) (max_avg_proposals : Z)
          (temporal_iou_thresholds : list Q).

Abbreviation body :=
  (evaluate_metric average_recall_at_avg_proposals ground_truth proposal
     num_proposals max_avg_proposals temporal_iou_thresholds).

Lemma evaluate_metric_other (eval_results : gmap string Q) (metric : string) :
  metric <> "AR@AN" -> body eval_results metric = Ok eval_results.
Proof. intros Hne. unfold evaluate_metric. by rewrite decide_False. Qed.

Lemma metrics_loop_other (metrics : list string)
    (eval_results : gmap string Q) :
  "AR@AN" ∉ metrics -> for_each body metrics eval_results = Ok eval_results.
Proof.
  intros Hnot. apply for_each_id. intros metric r Hin.
  apply evaluate_metric_other. intros ->. contradiction.
Qed.

Variables (recall : ndarray2) (avg_recall proposals_per_video : list Q)
          (auc : Q).

Hypothesis average_recall_returns :
  average_recall_at_avg_proposals ground_truth proposal num_proposals
    max_avg_proposals temporal_iou_thresholds
  = Ok (recall, avg_recall, proposals_per_video, auc).

Lemma evaluate_metric_wide (eval_results : gmap string Q) :
  (100 <= ncols recall)%nat ->
  body eval_results "AR@AN" = Ok (ar_an_report recall auc eval_results).
Proof.
  intros Hwide. unfold evaluate_metric. rewrite decide_True by done.
  rewrite average_recall_returns. simpl. unfold column.
  repeat (rewrite decide_True by lia; simpl). reflexivity.
Qed.

Lemma evaluate_metric_narrow (eval_results : gmap string Q) :
  (ncols recall < 100)%nat ->
  exists i, i ∈ [0; 4; 9; 99]%nat
            /\ body eval_results "AR@AN" = Raise (IndexError i (ncols recall)).
Proof.
  intros Hnarrow. unfold evaluate_metric. rewrite decide_True by done.
  rewrite average_recall_returns. simpl. unfold column.
  destruct (decide (0 < ncols recall)%nat); simpl;
    [|exists 0%nat; split; [set_solver|done]].
  destruct (decide (4 < ncols recall)%nat); simpl;
    [|exists 4%nat; split; [set_solver|done]].
  destruct (decide (9 < ncols recall)%nat); simpl;
    [|exists 9%nat; split; [set_solver|done]].
  destruct (decide (99 < ncols recall)%nat); simpl; [lia|].
  exists 99%nat; split; [set_solver|done].
Qed.

Lemma metrics_loop_narrow (metrics : list string)
    (eval_results : gmap string Q) :
  "AR@AN" ∈ metrics -> (ncols recall < 100)%nat ->
  exists i, i ∈ [0; 4; 9; 99]%nat
            /\ for_each body metrics eval_results
               = Raise (IndexError i (ncols recall)).
Proof.
  intros Hin Hnarrow. induction metrics as [|metric ms IH]; [by inversion Hin|].
  rewrite for_each_cons. destruct (decide (metric = "AR@AN")) as [->|Hne].
  - destruct (evaluate_metric_narrow eval_results Hnarrow) as (i & Hi & ->).
    by exists i.
  - rewrite evaluate_metric_other by done. simpl. apply IH.
    apply elem_of_cons in Hin as [Heq|Hin]; [congruence|done].
Qed.

Lemma ar_an_report_again (eval_results : gmap string Q) :
  ar_an_report recall auc (ar_an_report recall auc eval_results)
  = ar_an_report recall auc eval_results.
Proof.
  unfold ar_an_report. apply map_eq. intros k.
  rewrite !lookup_insert. repeat case_decide; done.
Qed.

Lemma metrics_loop_wide (metrics : list string)
    (eval_results : gmap string Q) :
  "AR@AN" ∈ metrics -> (100 <= ncols recall)%nat ->
  for_each body metrics eval_results
  = Ok (ar_an_report recall auc eval_results).
Proof.
  intros Hin Hwide. revert eval_results Hin.
  induction metrics as [|metric ms IH]; intros r Hin; [by inversion Hin|].
  rewrite for_each_cons. destruct (decide (metric = "AR@AN")) as [->|Hne].
  - rewrite evaluate_metric_wide by done. simpl.
    destruct (decide ("AR@AN" ∈ ms)) as [Hms|Hms].
    + rewrite IH by done. by rewrite ar_an_report_again.
    + by apply metrics_loop_other.
  - rewrite evaluate_metric_other by done. simpl. apply IH.
    apply elem_of_cons in Hin as [Heq|Hin]; [congruence|done].
Qed.

End EvaluateFacts.

(** C1 (amended).  [_evaluate] skips every metric name other than
    ['AR@AN']: a call whose metrics sequence holds no ['AR@AN'], and whose
    ground-truth and proposal imports succeed, returns normally, with an
    empty result mapping, and raises no unsupported-metric error. *)
Theorem evaluate_skips_other_metrics
    (average_recall_at_avg_proposals :
       gmap string (list gt_row) -> gmap string (list proposal_row) -> nat ->
       Z -> list Q -> res (ndarray2 * list Q * list Q * Q))
    (records : list video_info) (results : list result)
    (metrics : list string) (max_avg_proposals : Z)
    (temporal_iou_thresholds : list Q)
    (ground_truth : gmap string (list gt_row))
    (proposal : gmap string (list proposal_row)) (num_proposals : nat) :
  "AR@AN" ∉ metrics ->
  _import_ground_truth records = Ok ground_truth ->
  _import_proposals results = Ok (proposal, num_proposals) ->
  _evaluate average_recall_at_avg_proposals records results metrics
    max_avg_proposals temporal_iou_thresholds
  = Ok ∅.
Proof.
  intros Hnot Hgt Hprop. unfold _evaluate. rewrite Hgt, Hprop. simpl.
  by apply metrics_loop_other.
Qed.

Lemma evaluate_skips_other_metrics_witness :
("AR@AN" ∉ ["mean_class_accuracy"; "top_k_accuracy"])
  /\ _evaluate Accuracy.average_recall_call sample_records sample_results
       ["mean_class_accuracy"; "top_k_accuracy"] default_max_avg_proposals
       default_temporal_iou_thresholds
     = Ok ∅.
Proof.
  assert (Hnot : "AR@AN" ∉ ["mean_class_accuracy"; "top_k_accuracy"]).
  { rewrite !not_elem_of_cons. repeat split; [discriminate..|].
    apply not_elem_of_nil. }
  split; [exact Hnot|].
  eapply (evaluate_skips_other_metrics Accuracy.average_recall_call
            sample_records sample_results); [exact Hnot| |]; reflexivity.
Defined.

(** C1 as stated fails: a metrics sequence holding only an unknown name
    makes [_evaluate] return normally. *)
Lemma evaluate_returns_on_unknown_metric :
  "top_k_accuracy" <> "AR@AN"
  /\ _evaluate Accuracy.average_recall_call sample_records sample_results
       ["top_k_accuracy"] default_max_avg_proposals
       default_temporal_iou_thresholds
     = Ok ∅.
Proof. split; [discriminate|reflexivity]. Qed.

(** C10.  With ['AR@AN'] among the metrics, [_evaluate] reads columns 0,
    4, 9 and 99 of the recall matrix for AR@1, AR@5, AR@10 and AR@100:
    with at least 100 columns every read is in bounds and the call returns
    the report; with fewer than 100 columns one of the four reads is out
    of bounds and the call raises the index error. *)
Theorem evaluate_recall_columns
    (average_recall_at_avg_proposals :
       gmap string (list gt_row) -> gmap string (list proposal_row) -> nat ->
       Z -> list Q -> res (ndarray2 * list Q * list Q * Q))
    (records : list video_info) (results : list result)
    (metrics : list string) (max_avg_proposals : Z)
    (temporal_iou_thresholds : list Q)
    (ground_truth : gmap string (list gt_row))
    (proposal : gmap string (list proposal_row)) (num_proposals : nat)
    (recall : ndarray2) (avg_recall proposals_per_video : list Q) (auc : Q) :
  "AR@AN" ∈ metrics ->
  _import_ground_truth records = Ok ground_truth ->
  _import_proposals results = Ok (proposal, num_proposals) ->
  average_recall_at_avg_proposals ground_truth proposal num_proposals
    max_avg_proposals temporal_iou_thresholds
  = Ok (recall, avg_recall, proposals_per_video, auc) ->
  ((100 <= ncols recall)%nat ->
   exists eval_results,
     _evaluate average_recall_at_avg_proposals records results metrics
       max_avg_proposals temporal_iou_thresholds
     = Ok eval_results
     /\ eval_results !! "AR@1" = Some (np_mean (column_values recall 0))
     /\ eval_results !! "AR@5" = Some (np_mean (column_values recall 4))
     /\ eval_results !! "AR@10" = Some (np_mean (column_values recall 9))
     /\ eval_results !! "AR@100" = Some (np_mean (column_values recall 99)))
  /\ ((ncols recall < 100)%nat ->
      exists i, i ∈ [0; 4; 9; 99]%nat
                /\ _evaluate average_recall_at_avg_proposals records results
                     metrics max_avg_proposals temporal_iou_thresholds
                   = Raise (IndexError i (ncols recall))).
Proof.
  intros Hin Hgt Hprop Havg. unfold _evaluate. rewrite Hgt, Hprop. simpl.
  split.
  - intros Hwide. exists (ar_an_report recall auc ∅). split.
    + by eapply metrics_loop_wide.
    + unfold ar_an_report. by repeat split.
  - intros Hnarrow. by eapply metrics_loop_narrow.
Qed.

Lemma evaluate_recall_columns_witness :
  exists eval_results,
    _evaluate Accuracy.average_recall_call sample_records sample_results
      ["AR@AN"] default_max_avg_proposals default_temporal_iou_thresholds
    = Ok eval_results
    /\ is_Some (eval_results !! "AR@100").
Proof.
  edestruct (evaluate_recall_columns Accuracy.average_recall_call
               sample_records sample_results ["AR@AN"]
               default_max_avg_proposals default_temporal_iou_thresholds)
    as [Hwide _].
  - left.
  - reflexivity.
  - reflexivity.
  - reflexivity.
  - destruct Hwide as (eval_results & Hrun & _ & _ & _ & H100).
    + simpl. lia.
    + exists eval_results. split; [exact Hrun|]. rewrite H100. by eexists.
Defined.

(** A sweep of five budgets gives five columns: the read of column 9
    fails. *)
Example evaluate_five_budgets :
  _evaluate Accuracy.average_recall_call sample_records sample_results
    ["AR@AN"] 5 default_temporal_iou_thresholds
  = Raise (IndexError 9 5).
Proof. reflexivity. Qed.

(** *** [dump_results] *)

Section DumpFacts.

Variable fs : Type.
Variable mmcv_dump : output_dict -> string -> fs -> (string + unit) * fs.
Variable mmcv_load : string -> fs -> (string + output_dict) * fs.
Variable os_makedirs : string -> bool -> fs -> (string + unit) * fs.
Variable osp_join : string -> string -> string.
Variable np_savetxt :
  string -> pyobj -> string -> string -> string -> fs -> (string + unit) * fs.

Abbreviation dump :=
  (dump_results fs mmcv_dump os_makedirs osp_join np_savetxt).

(** What a library call raises is a library error. *)
Lemma call_not_unsupported {A : Type} (f : fs -> (string + A) * fs) (s : fs)
    (output_format : string) :
  fst (call fs f s) <> Raise (unsupported_format output_format).
Proof. unfold call. destruct (f s) as [[m|a] s']; simpl; discriminate. Qed.

Lemma proposals2json_no_value_error (results : list result)
    (m : gmap string (list proposal)) (msg : string) :
  for_each json_of_result results m <> Raise (ValueError msg).
Proof.
  revert m. induction results as [|r rs IH]; intros m; [discriminate|].
  rewrite for_each_cons. destruct r as [video_name proposal_list| |]; simpl.
  - apply IH.
  - discriminate.
  - discriminate.
Qed.

(** The [ValueError] of an unpacking is not the one of the format. *)
Lemma unpack_result_not_unsupported (r : result) (output_format : string) :
  unpack_result r <> Raise (unsupported_format output_format).
Proof.
  destruct r as [video_name proposal_list|video_name outputs|items]; simpl;
    [discriminate..|].
  destruct items as [|a [|b [|c ?]]]; simpl; discriminate.
Qed.

Lemma add_suffix_not_unsupported (video_name : pyobj) (suffix : string)
    (output_format : string) :
  add_suffix video_name suffix <> Raise (unsupported_format output_format).
Proof. destruct video_name; simpl; discriminate. Qed.

Lemma csv_step_not_unsupported (out header : string) (r : result) (s : fs)
    (output_format : string) :
  fst (csv_step fs osp_join np_savetxt out header r s)
  <> Raise (unsupported_format output_format).
Proof.
  unfold csv_step, mbind, io_mbind, io_bind, pure.
  pose proof (unpack_result_not_unsupported r output_format) as Hun.
  destruct (unpack_result r) as [[video_name outputs]|e]; simpl;
    [|congruence].
  pose proof (add_suffix_not_unsupported video_name ".csv" output_format)
    as Hadd.
  destruct (add_suffix video_name ".csv") as [file_name|e]; simpl;
    [|congruence].
  apply call_not_unsupported.
Qed.

Lemma csv_loop_not_unsupported (out header : string)
    (results : list result) (s : fs) (output_format : string) :
  fst (io_for_each fs (csv_step fs osp_join np_savetxt out header) results s)
  <> Raise (unsupported_format output_format).
Proof.
  revert s. induction results as [|r rs IH]; intros s; [discriminate|].
  simpl. unfold mbind, io_mbind, io_bind at 1.
  pose proof (csv_step_not_unsupported out header r s output_format) as Hstep.
  destruct (csv_step fs osp_join np_savetxt out header r s)
    as [[[]|e] s0]; simpl in *; [apply IH|exact Hstep].
Qed.

(** C2.  With an [output_format] other than ['json'] and ['csv'],
    [dump_results] raises the unsupported-format [ValueError] and leaves
    the file system as it was; with ['json'] or ['csv'] that error is
    not raised. *)
Theorem dump_results_unsupported_format (results : list result)
    (out output_format version : string) (s : fs) :
  (output_format <> "json" -> output_format <> "csv" ->
   dump results out output_format version s
   = (Raise (unsupported_format output_format), s))
  /\ (output_format = "json" \/ output_format = "csv" ->
      forall any_format,
        fst (dump results out output_format version s)
        <> Raise (unsupported_format any_format)).
Proof.
  split.
  - intros Hjson Hcsv. unfold dump_results.
    by rewrite !decide_False.
  - intros [-> | ->] any_format; unfold dump_results; simpl;
      unfold mbind, io_mbind; unfold io_bind at 1; unfold pure.
    + unfold proposals2json.
      pose proof (proposals2json_no_value_error results ∅) as Hjson.
      destruct (for_each json_of_result results ∅) as [result_dict|e]; simpl.
      * apply call_not_unsupported.
      * intros Heq. eapply Hjson. unfold unsupported_format in Heq.
        injection Heq as ->. reflexivity.
    + pose proof (call_not_unsupported (os_makedirs out true) s any_format)
        as Hdir.
      destruct (call fs (os_makedirs out true) s) as [[[]|e] s1]; simpl in *.
      * apply csv_loop_not_unsupported.
      * exact Hdir.
Qed.

End DumpFacts.

Lemma dump_results_unsupported_format_witness :
  dump_results mem_fs mem_dump mem_makedirs mem_join mem_savetxt
    sample_results "proposals" "xml" default_version ∅
  = (Raise (unsupported_format "xml"), ∅)
  /\ (forall any_format,
        fst (dump_results mem_fs mem_dump mem_makedirs mem_join mem_savetxt
               sample_results "proposals.json" "json" default_version ∅)
        <> Raise (unsupported_format any_format))
  /\ (forall any_format,
        fst (dump_results mem_fs mem_dump mem_makedirs mem_join mem_savetxt
               pair_results "out" "csv" default_version ∅)
        <> Raise (unsupported_format any_format)).
Proof.
  split; [|split].
  - apply (proj1 (dump_results_unsupported_format mem_fs mem_dump
                    mem_makedirs mem_join mem_savetxt sample_results
                    "proposals" "xml" default_version ∅));
      discriminate.
  - apply (proj2 (dump_results_unsupported_format mem_fs mem_dump
                    mem_makedirs mem_join mem_savetxt sample_results
                    "proposals.json" "json" default_version ∅)).
    by left.
  - apply (proj2 (dump_results_unsupported_format mem_fs mem_dump
                    mem_makedirs mem_join mem_savetxt pair_results
                    "out" "csv" default_version ∅)).
    by right.
Defined.

(** In the csv branch a tuple of three items raises the [ValueError] of
    the unpacking, after the directory was made. *)
Example dump_csv_three_items :
  dump_results mem_fs mem_dump mem_makedirs mem_join mem_savetxt
    [ResultTuple [ObjStr "v_a"; ObjArray []; ObjArray []]] "out" "csv"
    default_version ∅
  = (Raise (ValueError "too many values to unpack (expected 2)"), ∅).
Proof. reflexivity. Qed.


End ActivityNetFacts.

(** ** The VideoAligner neck *)

Module VideoAlignerFacts.

Import VideoAligner.

Section NeckFacts.

Variable tensor : Type.
Variable spatial_pool : tensor -> string + tensor.
Variable mapper : tensor -> string + tensor.
Variable normalize : tensor -> Z -> string + tensor.

Abbreviation run := (forward tensor spatial_pool mapper normalize).





End NeckFacts.

(** In evaluation mode the embedding is computed from the input. *)
Example forward_eval_mode :
  forward shape (avg_pool_shape eval_neck) (mapper_shape eval_neck)
    normalize_shape eval_neck [2; 960; 4; 7; 7]%Z true
  = Ok (WithExtra shape [2; 960; 4; 7; 7]%Z
          {| temporal_embd := Some [2; 256; 4; 1; 1]%Z |}).
Proof. reflexivity. Qed.



End VideoAlignerFacts.

(** ** The metric functions *)

Module AccuracyFacts.

Import Accuracy.

Lemma lookup_map {A B : Type} (f : A -> B) (l : list A) (i : nat) :
  map f l !! i = f <$> l !! i.
Proof.
  revert i. induction l as [|x l IH]; intros [|i]; simpl; done.
Qed.

(** *** Sorting keeps the elements *)

Lemma insert_by_perm {A : Type} (leb : A -> A -> bool) (x : A) (l : list A) :
  insert_by leb x l ≡ₚ x :: l.
Proof.
  induction l as [|y l IH]; simpl; [done|].
  destruct (leb x y); [done|]. rewrite IH. apply Permutation_swap.
Qed.

Lemma sort_by_perm {A : Type} (leb : A -> A -> bool) (l : list A) :
  sort_by leb l ≡ₚ l.
Proof.
  induction l as [|x l IH]; simpl; [done|].
  rewrite insert_by_perm. by rewrite IH.
Qed.

Lemma ranked_classes_perm (row : list Q) :
  ranked_classes row ≡ₚ seq 0 (length row).
Proof. apply sort_by_perm. Qed.

(** *** Top-k accuracy *)

Lemma top_k_all (row : list Q) : top_k (length row) row = ranked_classes row.
Proof.
  unfold top_k. apply firstn_all2.
  rewrite (Permutation_length (ranked_classes_perm row)). by rewrite length_seq.
Qed.

Lemma hit_all (row : list Q) (label : nat) :
  (label < length row)%nat -> hit (length row) (row, label) = true.
Proof.
  intros Hlabel. unfold hit. simpl. rewrite top_k_all.
  apply existsb_exists. exists label. split; [|apply Nat.eqb_refl].
  apply list_elem_of_In. rewrite (ranked_classes_perm row).
  apply list_elem_of_In, in_seq. lia.
Qed.

Lemma samples_all_hit (num_classes : nat) (scores : list (list Q))
    (labels : list nat) :
  Forall (fun row => length row = num_classes) scores ->
  Forall (fun label => (label < num_classes)%nat) labels ->
  Forall (fun s => hit num_classes s = true) (combine scores labels).
Proof.
  intros Hrows. revert labels.
  induction Hrows as [|row scores Hrow Hrows IH]; intros labels Hlabels;
    [constructor|].
  destruct Hlabels as [|label labels Hlabel Hlabels]; simpl; constructor.
  - subst num_classes. by apply hit_all.
  - by apply IH.
Qed.

Lemma filter_all {A : Type} (P : A -> Prop) `{forall x, Decision (P x)}
    (l : list A) :
  Forall P l -> filter P l = l.
Proof.
  induction 1 as [|x l Hx Hl IH]; [done|].
  rewrite filter_cons_True by done. by rewrite IH.
Qed.

(** C3 (amended).  For every score matrix with at least one row and
    [num_classes] columns, and every label vector with one valid class
    index per row, [top_k_accuracy] with [k = num_classes] returns 1. *)
Theorem top_k_accuracy_all_classes (num_classes : nat)
    (scores : list (list Q)) (labels : list nat) :
  scores <> [] ->
  length scores = length labels ->
  Forall (fun row => length row = num_classes) scores ->
  Forall (fun label => (label < num_classes)%nat) labels ->
  exists accuracy,
    top_k_accuracy scores labels [num_classes] = Ok [accuracy]
    /\ (accuracy == 1)%Q.
Proof.
  intros Hne Hlen Hrows Hlabels. unfold top_k_accuracy.
  rewrite decide_True by done. simpl. eexists. split; [reflexivity|].
  unfold hit_fraction.
  rewrite (filter_all _ _ (samples_all_hit num_classes scores labels Hrows Hlabels)).
  apply Qmult_inv_r. rewrite length_combine, <- Hlen, Nat.min_id.
  destruct scores; [done|]. simpl length. discriminate.
Qed.

Lemma top_k_accuracy_all_classes_witness :
  exists accuracy,
    top_k_accuracy [[1 # 10; 7 # 10; 2 # 10]; [5 # 10; 5 # 10; 0]]%Q
                   [0; 2]%nat [3%nat]
    = Ok [accuracy]
    /\ (accuracy == 1)%Q.
Proof.
  apply (top_k_accuracy_all_classes 3); [discriminate|reflexivity| |].
  - repeat constructor.
  - repeat constructor.
Defined.

(** C3 as stated fails on the matrix without rows: the fraction of no
    samples is not 1. *)
Lemma top_k_accuracy_no_samples :
  ~ exists accuracy,
      top_k_accuracy [] [] [3%nat] = Ok [accuracy] /\ (accuracy == 1)%Q.
Proof.
  intros (accuracy & Hrun & Hone). injection Hrun as <-.
  vm_compute in Hone. discriminate Hone.
Qed.

(** *** Temporal intersection over union *)

Lemma temporal_iou_self (a : segment) :
  non_degenerate a -> (temporal_iou a a == 1)%Q.
Proof.
  destruct a as [s e]. unfold non_degenerate, temporal_iou. simpl.
  intros Hlt.
  assert (Hi : (Qmax 0 (Qmin e e - Qmax s s) == e - s)%Q).
  { rewrite Q.min_id, Q.max_id. apply Q.max_r. lra. }
  rewrite Hi. field. lra.
Qed.

Lemma intersection_le_0 (a b : segment) :
  non_overlapping a b ->
  (Qmin (snd a) (snd b) - Qmax (fst a) (fst b) <= 0)%Q.
Proof.
  intros Hno.
  pose proof (Q.le_min_l (snd a) (snd b)).
  pose proof (Q.le_min_r (snd a) (snd b)).
  pose proof (Q.le_max_l (fst a) (fst b)).
  pose proof (Q.le_max_r (fst a) (fst b)).
  destruct Hno; lra.
Qed.

Lemma temporal_iou_apart (a b : segment) :
  non_overlapping a b -> (temporal_iou a b == 0)%Q.
Proof.
  intros Hno. unfold temporal_iou.
  assert (Hi : (Qmax 0 (Qmin (snd a) (snd b) - Qmax (fst a) (fst b)) == 0)%Q)
    by (apply Q.max_l, intersection_le_0, Hno).
  cbv zeta. rewrite Hi. unfold Qdiv. apply Qmult_0_l.
Qed.

Lemma pairwise_entry (segments_a segments_b : list segment) (i j : nat)
    (a b : segment) :
  segments_a !! i = Some a -> segments_b !! j = Some b ->
  entry (pairwise_temporal_iou segments_a segments_b) i j
  = Some (temporal_iou a b).
Proof.
  intros Ha Hb. unfold entry, pairwise_temporal_iou.
  rewrite lookup_map, Ha. simpl. by rewrite lookup_map, Hb.
Qed.

(** C4.  For every list of non-degenerate segments, the matrix
    [pairwise_temporal_iou] computes of the list against itself holds 1
    where a segment meets itself, and 0 where two segments do not
    overlap. *)
Theorem pairwise_temporal_iou_self (segments : list segment) :
  Forall non_degenerate segments ->
  forall i j a b,
    segments !! i = Some a -> segments !! j = Some b ->
    exists iou,
      entry (pairwise_temporal_iou segments segments) i j = Some iou
      /\ (i = j -> (iou == 1)%Q)
      /\ (non_overlapping a b -> (iou == 0)%Q).
Proof.
  intros Hnd i j a b Ha Hb. exists (temporal_iou a b).
  split; [by apply pairwise_entry|]. split.
  - intros ->. assert (a = b) as -> by congruence.
    apply temporal_iou_self. rewrite Forall_forall in Hnd. apply Hnd.
    by apply list_elem_of_lookup_2 with j.
  - apply temporal_iou_apart.
Qed.

Lemma pairwise_temporal_iou_self_witness :
  let segments := [(0, 10); (12, 20); (5, 15)]%Q in
  Forall non_degenerate segments
  /\ (exists iou,
        entry (pairwise_temporal_iou segments segments) 1 1 = Some iou
        /\ (iou == 1)%Q)
  /\ (exists iou,
        entry (pairwise_temporal_iou segments segments) 0 1 = Some iou
        /\ (iou == 0)%Q).
Proof.
  intros segments.
  assert (Hnd : Forall non_degenerate segments)
    by (repeat constructor).
  split; [exact Hnd|]. split.
  - destruct (pairwise_temporal_iou_self segments Hnd 1 1 (12, 20)%Q (12, 20)%Q)
      as (iou & Hentry & Hself & _); [reflexivity..|].
    exists iou. split; [exact Hentry|]. by apply Hself.
  - destruct (pairwise_temporal_iou_self segments Hnd 0 1 (0, 10)%Q (12, 20)%Q)
      as (iou & Hentry & _ & Hapart); [reflexivity..|].
    exists iou. split; [exact Hentry|]. apply Hapart. left. simpl. lra.
Defined.

(** Two overlapping segments: 5 units shared out of 15. *)
Example temporal_iou_overlap :
  (temporal_iou (0, 10) (5, 15) == 1 # 3)%Q.
Proof. reflexivity. Qed.

(** *** Average recall *)

Lemma assign_grows (threshold : Q) (gts : list segment) (matched : list nat)
    (p : segment) :
  (length matched <= length (assign threshold gts matched p))%nat.
Proof.
  unfold assign.
  destruct (best_candidate gts p (candidates threshold gts matched p));
    simpl; lia.
Qed.

Lemma matching_grows (threshold : Q) (gts props : list segment)
    (matched : list nat) :
  (length matched
   <= length (fold_left (assign threshold gts) props matched))%nat.
Proof.
  revert matched. induction props as [|p props IH]; intros matched; simpl;
    [lia|].
  etransitivity; [apply assign_grows|apply IH].
Qed.

(** A larger budget retrieves the same proposals and then some more. *)
Lemma retrieved_prefix (b b' : nat) (video_proposals : list proposal_row) :
  (b <= b')%nat ->
  exists more,
    retrieved b' video_proposals = retrieved b video_proposals ++ more.
Proof.
  intros Hle. unfold retrieved.
  set (l := map proposal_segment (ranked video_proposals)).
  exists (skipn b (firstn b' l)).
  rewrite <- (firstn_skipn b (firstn b' l)) at 1.
  by rewrite firstn_firstn, Nat.min_l.
Qed.

Lemma video_matches_mono (threshold : Q) (b b' : nat) (gts : list gt_row)
    (video_proposals : list proposal_row) :
  (b <= b')%nat ->
  (video_matches threshold b gts video_proposals
   <= video_matches threshold b' gts video_proposals)%nat.
Proof.
  intros Hle. unfold video_matches, greedy_matches.
  destruct (retrieved_prefix b b' video_proposals Hle) as [more ->].
  rewrite fold_left_app. apply matching_grows.
Qed.

Lemma nat_sum_mono {A : Type} (f g : A -> nat) (l : list A) :
  (forall x, (f x <= g x)%nat) ->
  (nat_sum (map f l) <= nat_sum (map g l))%nat.
Proof.
  intros Hfg. induction l as [|x l IH]; simpl; [lia|].
  specialize (Hfg x). lia.
Qed.

Lemma Qsum_mono {A : Type} (f g : A -> Q) (l : list A) :
  (forall x, (f x <= g x)%Q) -> (Qsum (map f l) <= Qsum (map g l))%Q.
Proof.
  intros Hfg. induction l as [|x l IH]; simpl; [lra|].
  specialize (Hfg x). lra.
Qed.

Lemma Qdiv_count_mono (x y : Q) (n : nat) :
  (x <= y)%Q ->
  (x / inject_Z (Z.of_nat n) <= y / inject_Z (Z.of_nat n))%Q.
Proof.
  intros Hxy. unfold Qdiv. apply Qmult_le_compat_r; [exact Hxy|].
  apply Qinv_le_0_compat. rewrite <- (Zle_Qle 0). lia.
Qed.

Lemma recall_at_mono (ground_truth : gmap string (list gt_row))
    (proposals : gmap string (list proposal_row)) (threshold : Q)
    (b b' : nat) :
  (b <= b')%nat ->
  (recall_at ground_truth proposals threshold b
   <= recall_at ground_truth proposals threshold b')%Q.
Proof.
  intros Hle. unfold recall_at. cbv zeta. apply Qdiv_count_mono.
  rewrite <- Zle_Qle. apply Nat2Z.inj_le. apply nat_sum_mono.
  intros v. by apply video_matches_mono.
Qed.

Lemma average_recall_at_mono (ground_truth : gmap string (list gt_row))
    (proposals : gmap string (list proposal_row))
    (temporal_iou_thresholds : list Q) (b b' : nat) :
  (b <= b')%nat ->
  (average_recall_at ground_truth proposals temporal_iou_thresholds b
   <= average_recall_at ground_truth proposals temporal_iou_thresholds b')%Q.
Proof.
  intros Hle. unfold average_recall_at, np_mean. rewrite !length_map.
  apply Qdiv_count_mono. apply Qsum_mono. intros thr.
  by apply recall_at_mono.
Qed.

(** Entry [i] of a curve over the budgets [1 .. n] is its value at budget
    [i + 1]. *)
Lemma curve_lookup (f : nat -> Q) (n i : nat) (x : Q) :
  map f (seq 1 n) !! i = Some x -> x = f (S i) /\ (i < n)%nat.
Proof.
  rewrite lookup_map. intros Hx.
  destruct (seq 1 n !! i) as [b|] eqn:Hb; [|discriminate].
  apply lookup_seq in Hb as [-> Hlt]. simpl in Hx. injection Hx as <-. done.
Qed.

Lemma curve_last (f : nat -> Q) (n : nat) (x : Q) :
  last (map f (seq 1 n)) = Some x -> x = f n /\ (1 <= n)%nat.
Proof.
  rewrite last_lookup, length_map, length_seq. intros Hx.
  apply curve_lookup in Hx as [-> Hlt].
  replace (S (Init.Nat.pred n)) with n by lia. split; [done|lia].
Qed.

(** C5.  For fixed ground truth, proposals, proposal count and IoU
    thresholds, the average recall that
    [average_recall_at_avg_proposals] computes does not go down when
    [max_avg_proposals] goes up: the average recall at the full budget of
    the smaller sweep is at most that of the larger sweep, and the curve
    of the larger sweep is non-decreasing. *)
Theorem average_recall_monotone (ground_truth : gmap string (list gt_row))
    (proposals : gmap string (list proposal_row)) (num_proposals : nat)
    (temporal_iou_thresholds : list Q) (m m' : Z)
    (recall recall' : ndarray2)
    (avg_recall avg_recall' per_video per_video' : list Q) (auc auc' : Q) :
  (m <= m')%Z ->
  average_recall_at_avg_proposals ground_truth proposals num_proposals m
    temporal_iou_thresholds
  = (recall, avg_recall, per_video, auc) ->
  average_recall_at_avg_proposals ground_truth proposals num_proposals m'
    temporal_iou_thresholds
  = (recall', avg_recall', per_video', auc') ->
  (forall x y,
     last avg_recall = Some x -> last avg_recall' = Some y -> (x <= y)%Q)
  /\ non_decreasing avg_recall'.
Proof.
  intros Hle Hrun Hrun'. unfold average_recall_at_avg_proposals in *.
  injection Hrun as _ <- _ _. injection Hrun' as _ <- _ _.
  unfold budgets. split.
  - intros x y Hx Hy.
    apply curve_last in Hx as [-> Hm]. apply curve_last in Hy as [-> Hm'].
    apply average_recall_at_mono. lia.
  - intros i j x y Hij Hx Hy.
    apply curve_lookup in Hx as [-> _]. apply curve_lookup in Hy as [-> _].
    apply average_recall_at_mono. lia.
Qed.

Lemma average_recall_monotone_witness :
  (forall x y,
     last (avg_recall_of
             (average_recall_at_avg_proposals example_ground_truth
                late_hit_proposals 2 1 [1 # 2; 3 # 4]%Q)) = Some x ->
     last (avg_recall_of
             (average_recall_at_avg_proposals example_ground_truth
                late_hit_proposals 2 3 [1 # 2; 3 # 4]%Q)) = Some y ->
     (x <= y)%Q)
  /\ non_decreasing
       (avg_recall_of
          (average_recall_at_avg_proposals example_ground_truth
             late_hit_proposals 2 3 [1 # 2; 3 # 4]%Q)).
Proof.
  eapply (average_recall_monotone example_ground_truth late_hit_proposals 2
            [1 # 2; 3 # 4]%Q 1 3); [lia|reflexivity|reflexivity].
Defined.

(** The example of the specification: recall at one proposal is 1 at the
    IoU threshold 0.5. *)
Example recall_at_example :
  recall_at example_ground_truth example_proposals (1 # 2) 1 = (1 # 1)%Q.
Proof. reflexivity. Qed.

(** With the hit ranked second, the averaged curve rises from 0 to 1 at
    the second budget and stays there. *)
Example late_hit_curve :
  avg_recall_of
    (average_recall_at_avg_proposals example_ground_truth late_hit_proposals
       2 3 [1 # 2; 3 # 4]%Q)
  = [0 # 2; 2 # 2; 2 # 2]%Q.
Proof. reflexivity. Qed.

End AccuracyFacts.

(** ** More on the ActivityNet dataset wrapper *)

Module ActivityNetImports.

Import ActivityNet ActivityNetFacts.

(** *** Unpacking *)

Lemma unpack2_two {A : Type} (xs : list A) :
  length xs = 2%nat -> exists a b, xs = [a; b] /\ unpack2 xs = Ok (a, b).
Proof.
  destruct xs as [|a [|b [|c ?]]]; simpl; try discriminate.
  intros _. by exists a, b.
Qed.

Lemma unpack2_other {A : Type} (xs : list A) :
  length xs <> 2%nat -> exists msg, unpack2 xs = Raise (ValueError msg).
Proof.
  destruct xs as [|a [|b [|c ?]]]; simpl; intros Hlen.
  - eexists; reflexivity.
  - eexists; reflexivity.
  - contradiction.
  - eexists; reflexivity.
Qed.

(** *** [_import_ground_truth] *)

Lemma gt_of_annotation_two (acc : list gt_row) (ann : annotation) :
  two_element_annotation ann = true ->
  gt_of_annotation acc ann = Ok (acc ++ [gt_row_of ann]).
Proof.
  intros Hann. unfold gt_of_annotation, gt_row_of.
  apply Nat.eqb_eq, unpack2_two in Hann as (a & b & Hseg & Hun).
  by rewrite Hun, Hseg.
Qed.

Lemma gt_of_annotation_other (acc : list gt_row) (ann : annotation) :
  two_element_annotation ann = false ->
  exists msg, gt_of_annotation acc ann = Raise (ValueError msg).
Proof.
  intros Hann. unfold gt_of_annotation.
  apply Nat.eqb_neq, unpack2_other in Hann as [msg Hun].
  rewrite Hun. by exists msg.
Qed.

Lemma gt_row_loop (anns : list annotation) (acc : list gt_row) :
  forallb two_element_annotation anns = true ->
  for_each gt_of_annotation anns acc = Ok (acc ++ map gt_row_of anns).
Proof.
  revert acc. induction anns as [|ann anns IH]; intros acc Hwf.
  - simpl. by rewrite app_nil_r.
  - rewrite for_each_cons. simpl in Hwf.
    apply andb_prop in Hwf as [Hann Hanns].
    rewrite gt_of_annotation_two by done. simpl.
    rewrite IH by done. by rewrite <- app_assoc.
Qed.

Lemma gt_row_loop_fails (anns : list annotation) (acc : list gt_row) :
  forallb two_element_annotation anns = false ->
  exists msg, for_each gt_of_annotation anns acc = Raise (ValueError msg).
Proof.
  revert acc. induction anns as [|ann anns IH]; intros acc Hbad;
    [discriminate|].
  rewrite for_each_cons. simpl in Hbad.
  destruct (two_element_annotation ann) eqn:Hann.
  - rewrite gt_of_annotation_two by done. simpl. by apply IH.
  - destruct (gt_of_annotation_other acc ann Hann) as [msg Hrun].
    rewrite Hrun. by exists msg.
Qed.

Lemma gt_of_video_well_formed (m : gmap string (list gt_row))
    (v : video_info) :
  well_formed_record v = true -> gt_of_video m v = Ok (file_record m v).
Proof.
  intros Hv. unfold gt_of_video. by rewrite gt_row_loop.
Qed.

Lemma gt_of_video_malformed (m : gmap string (list gt_row))
    (v : video_info) :
  well_formed_record v = false ->
  exists msg, gt_of_video m v = Raise (ValueError msg).
Proof.
  intros Hv. unfold gt_of_video.
  destruct (gt_row_loop_fails _ [] Hv) as [msg Hrun].
  rewrite Hrun. by exists msg.
Qed.

Lemma gt_loop (records : list video_info) (m : gmap string (list gt_row)) :
  forallb well_formed_record records = true ->
  for_each gt_of_video records m = Ok (fold_left file_record records m).
Proof.
  revert m. induction records as [|v vs IH]; intros m Hwf; [done|].
  rewrite for_each_cons. simpl in Hwf. apply andb_prop in Hwf as [Hv Hvs].
  rewrite gt_of_video_well_formed by done. simpl. by rewrite IH.
Qed.

Lemma gt_loop_fails (records : list video_info)
    (m : gmap string (list gt_row)) :
  forallb well_formed_record records = false ->
  exists msg, for_each gt_of_video records m = Raise (ValueError msg).
Proof.
  revert m. induction records as [|v vs IH]; intros m Hbad; [discriminate|].
  rewrite for_each_cons. simpl in Hbad.
  destruct (well_formed_record v) eqn:Hv.
  - rewrite gt_of_video_well_formed by done. simpl. by apply IH.
  - destruct (gt_of_video_malformed m v Hv) as [msg Hrun].
    rewrite Hrun. by exists msg.
Qed.

(** X1.  [_import_ground_truth] returns a mapping exactly when every
    annotation of every record has a two-element segment; otherwise the
    unpacking of the first other segment raises a [ValueError]. *)
Theorem import_ground_truth_returns_iff (records : list video_info) :
  if forallb well_formed_record records
  then exists ground_truth, _import_ground_truth records = Ok ground_truth
  else exists msg, _import_ground_truth records = Raise (ValueError msg).
Proof.
  unfold _import_ground_truth.
  destruct (forallb well_formed_record records) eqn:Hwf.
  - eexists. by apply gt_loop.
  - by apply gt_loop_fails.
Qed.

Lemma lookup_fold_record_other (records : list video_info)
    (m : gmap string (list gt_row)) (k : string) :
  (forall v, v ∈ records -> video_id (info_video_name v) <> k) ->
  fold_left file_record records m !! k = m !! k.
Proof.
  revert m. induction records as [|v vs IH]; intros m Hne; simpl; [done|].
  rewrite IH by (intros v' Hv'; apply Hne; by right).
  unfold file_record. apply lookup_insert_ne. apply Hne. by left.
Qed.

Lemma lookup_fold_record_last (records : list video_info)
    (m : gmap string (list gt_row)) (i : nat) (v : video_info) :
  records !! i = Some v ->
  last_record_of_its_video records i v ->
  fold_left file_record records m !! video_id (info_video_name v)
  = Some (gt_rows_of v).
Proof.
  revert m i. induction records as [|v0 vs IH]; intros m i Hi Hlast; [done|].
  destruct i as [|i]; simpl in *.
  - injection Hi as ->. rewrite lookup_fold_record_other.
    + unfold file_record. apply lookup_insert_eq.
    + intros v' Hv'. apply list_elem_of_lookup in Hv' as [j Hj].
      apply (Hlast (S j)); [lia|done].
  - apply (IH _ i); [done|]. intros j v' Hij Hj.
    apply (Hlast (S j)); [lia|done].
Qed.

(** X2.  For records whose annotations all have two-element segments,
    the mapping [_import_ground_truth] returns holds, under the video id
    of every record that is the last one with that id, the
    [[t_start, t_end, label]] rows of that record's annotations in order
    (no row for a record without annotations). *)
Theorem import_ground_truth_last_writer (records : list video_info) :
  forallb well_formed_record records = true ->
  exists ground_truth,
    _import_ground_truth records = Ok ground_truth
    /\ forall i v,
        records !! i = Some v -> last_record_of_its_video records i v ->
        ground_truth !! video_id (info_video_name v) = Some (gt_rows_of v).
Proof.
  intros Hwf. exists (fold_left file_record records ∅). split.
  - by apply gt_loop.
  - intros i v Hi Hlast. by apply lookup_fold_record_last with i.
Qed.

Lemma import_ground_truth_last_writer_witness :
  forallb well_formed_record sample_records = true
  /\ exists ground_truth,
      _import_ground_truth sample_records = Ok ground_truth
      /\ forall i v,
          sample_records !! i = Some v ->
          last_record_of_its_video sample_records i v ->
          ground_truth !! video_id (info_video_name v) = Some (gt_rows_of v).
Proof.
  split; [reflexivity|].
  apply (import_ground_truth_last_writer sample_records). reflexivity.
Defined.

(** Names with the same first two characters have distinct ids when they
    are distinct. *)
Lemma video_id_common_prefix (c1 c2 : Ascii.ascii) (names : list string) :
  (forall name, name ∈ names ->
                exists rest, name = String c1 (String c2 rest)) ->
  NoDup names -> NoDup (map video_id names).
Proof.
  intros Hprefix Hnodup. apply (NoDup_fmap_2_strong video_id); [|done].
  intros x y Hx Hy Hxy.
  destruct (Hprefix x Hx) as [rx ->]. destruct (Hprefix y Hy) as [ry ->].
  unfold video_id in Hxy. simpl in Hxy. by subst.
Qed.

(** X3.  When the video names of the records are pairwise distinct and
    all start with the same two characters (as ["v_"]), the mapping
    [_import_ground_truth] returns has exactly one entry per record. *)
Theorem import_ground_truth_one_entry_per_name (c1 c2 : Ascii.ascii)
    (records : list video_info) (ground_truth : gmap string (list gt_row)) :
  (forall name, name ∈ map info_video_name records ->
                exists rest, name = String c1 (String c2 rest)) ->
  NoDup (map info_video_name records) ->
  _import_ground_truth records = Ok ground_truth ->
  size ground_truth = length records.
Proof.
  intros Hprefix Hnodup Hrun. apply import_ground_truth_dom in Hrun.
  rewrite <- size_dom, Hrun, dom_empty_L, (left_id_L ∅ (∪)).
  rewrite size_list_to_set.
  - by rewrite length_map.
  - change (map (fun v => video_id (info_video_name v)) records)
      with (video_id ∘ info_video_name <$> records).
    rewrite list_fmap_compose.
    by apply (video_id_common_prefix c1 c2).
Qed.

Lemma import_ground_truth_one_entry_per_name_witness :
  size (fold_left file_record sample_records ∅) = length sample_records.
Proof.
  eapply (import_ground_truth_one_entry_per_name _ _ sample_records).
  - intros name Hname. simpl in Hname.
    rewrite !elem_of_cons, elem_of_nil in Hname.
    destruct Hname as [-> | [-> | []]]; by eexists.
  - simpl. repeat constructor; set_solver.
  - reflexivity.
Defined.

(** Two names that differ in their first two characters only are filed
    under one key. *)
Example import_ground_truth_collision :
  _import_ground_truth
    [ {| info_video_name := "v_a"; info_annotations := [] |};
      {| info_video_name := "x_a"; info_annotations := [] |} ]
  = Ok {[ "a" := [] ]}.
Proof. reflexivity. Qed.

(** *** [_import_proposals] *)

Lemma row_of_proposal_other (st : list proposal_row * nat) (p : proposal) :
  two_element_segment p = false ->
  exists msg, row_of_proposal st p = Raise (ValueError msg).
Proof.
  intros Hp. destruct st as [rows n]. unfold row_of_proposal.
  apply Nat.eqb_neq, unpack2_other in Hp as [msg Hun].
  rewrite Hun. by exists msg.
Qed.

Lemma row_of_proposal_two (rows : list proposal_row) (n : nat)
    (p : proposal) :
  two_element_segment p = true ->
  row_of_proposal (rows, n) p = Ok (rows ++ [triple_of p], S n).
Proof.
  intros Hp. unfold row_of_proposal, triple_of.
  apply Nat.eqb_eq, unpack2_two in Hp as (a & b & Hseg & Hun).
  by rewrite Hun, Hseg.
Qed.

Lemma row_loop_fails (proposal_list : list proposal)
    (st : list proposal_row * nat) :
  forallb two_element_segment proposal_list = false ->
  exists msg, for_each row_of_proposal proposal_list st
              = Raise (ValueError msg).
Proof.
  revert st. induction proposal_list as [|p pl IH]; intros [rows n] Hbad;
    [discriminate|].
  rewrite for_each_cons. simpl in Hbad.
  destruct (two_element_segment p) eqn:Hp.
  - rewrite row_of_proposal_two by done. simpl. by apply IH.
  - destruct (row_of_proposal_other (rows, n) p Hp) as [msg Hrun].
    rewrite Hrun. by exists msg.
Qed.

Lemma proposals_of_result_well_formed
    (m : gmap string (list proposal_row)) (n : nat) (r : result) :
  well_formed r = true ->
  proposals_of_result (m, n) r
  = Ok (file_result m r, (n + proposal_count r)%nat).
Proof.
  intros Hr. destruct r as [video_name proposal_list| |]; [|discriminate..].
  simpl in *. by rewrite row_loop.
Qed.

Lemma proposals_of_result_malformed
    (m : gmap string (list proposal_row)) (n : nat) (r : result) :
  well_formed r = false ->
  exists msg, proposals_of_result (m, n) r = Raise (TypeError msg)
              \/ proposals_of_result (m, n) r = Raise (ValueError msg).
Proof.
  intros Hr. destruct r as [video_name proposal_list|video_name outputs|items].
  - simpl in *. destruct (row_loop_fails proposal_list ([], n) Hr) as [msg Hrun].
    exists msg. right. by rewrite Hrun.
  - eexists. left. reflexivity.
  - eexists. left. reflexivity.
Qed.

Lemma import_loop_fails (results : list result)
    (m : gmap string (list proposal_row)) (n : nat) :
  forallb well_formed results = false ->
  exists msg,
    for_each proposals_of_result results (m, n) = Raise (TypeError msg)
    \/ for_each proposals_of_result results (m, n) = Raise (ValueError msg).
Proof.
  revert m n. induction results as [|r rs IH]; intros m n Hbad;
    [discriminate|].
  rewrite for_each_cons. simpl in Hbad.
  destruct (well_formed r) eqn:Hr.
  - rewrite proposals_of_result_well_formed by done. simpl. by apply IH.
  - destruct (proposals_of_result_malformed m n r Hr) as [msg [Hrun|Hrun]];
      rewrite Hrun; exists msg; [by left|by right].
Qed.

(** X4.  [_import_proposals] returns exactly when every result is a dict
    whose proposals all have a two-element segment, and then the count
    it returns is the number of proposals of all results; otherwise it
    raises the [TypeError] of indexing a tuple by a key or the
    [ValueError] of unpacking a segment. *)
Theorem import_proposals_returns_iff (results : list result) :
  if forallb well_formed results
  then exists proposals,
         _import_proposals results
         = Ok (proposals, total_proposal_count results)
  else exists msg,
         _import_proposals results = Raise (TypeError msg)
         \/ _import_proposals results = Raise (ValueError msg).
Proof.
  unfold _import_proposals.
  destruct (forallb well_formed results) eqn:Hwf.
  - eexists. by rewrite import_loop.
  - by apply import_loop_fails.
Qed.

(** *** [proposals2json] *)

Lemma json_of_result_dict (m : gmap string (list proposal)) (r : result) :
  is_dict r = true -> json_of_result m r = Ok (file_json m r).
Proof. by destruct r. Qed.

Lemma json_of_result_pair (m : gmap string (list proposal)) (r : result) :
  is_dict r = false -> exists msg, json_of_result m r = Raise (TypeError msg).
Proof. destruct r; [discriminate| |]; intros _; by eexists. Qed.

Lemma json_loop (results : list result) (m : gmap string (list proposal)) :
  forallb is_dict results = true ->
  for_each json_of_result results m = Ok (fold_left file_json results m).
Proof.
  revert m. induction results as [|r rs IH]; intros m Hd; [done|].
  rewrite for_each_cons. simpl in Hd. apply andb_prop in Hd as [Hr Hrs].
  rewrite json_of_result_dict by done. simpl. by rewrite IH.
Qed.

Lemma json_loop_fails (results : list result)
    (m : gmap string (list proposal)) :
  forallb is_dict results = false ->
  exists msg, for_each json_of_result results m = Raise (TypeError msg).
Proof.
  revert m. induction results as [|r rs IH]; intros m Hbad; [discriminate|].
  rewrite for_each_cons. simpl in Hbad. destruct (is_dict r) eqn:Hr.
  - rewrite json_of_result_dict by done. simpl. by apply IH.
  - destruct (json_of_result_pair m r Hr) as [msg Hrun].
    rewrite Hrun. by exists msg.
Qed.

(** The last element filed under a key is the one found there. *)
Lemma lookup_fold_insert_last {A V : Type} (key : A -> string)
    (val : A -> V) (l : list A) (m : gmap string V) (i : nat) (x : A) :
  l !! i = Some x ->
  (forall j y, (i < j)%nat -> l !! j = Some y -> key y <> key x) ->
  fold_left (fun m a => <[key a := val a]> m) l m !! key x = Some (val x).
Proof.
  revert m i. induction l as [|x0 l IH]; intros m i Hi Hlast; [done|].
  destruct i as [|i]; simpl in *.
  - injection Hi as ->.
    assert (Hother : forall l' (m' : gmap string V),
               (forall y, y ∈ l' -> key y <> key x) ->
               fold_left (fun m a => <[key a := val a]> m) l' m' !! key x
               = m' !! key x).
    { induction l' as [|y l' IH']; intros m' Hne; simpl; [done|].
      rewrite IH' by (intros z Hz; apply Hne; by right).
      apply lookup_insert_ne, Hne. by left. }
    rewrite Hother; [apply lookup_insert_eq|].
    intros y Hy. apply list_elem_of_lookup in Hy as [j Hj].
    apply (Hlast (S j)); [lia|done].
  - apply (IH _ i); [done|]. intros j y Hij Hj.
    apply (Hlast (S j)); [lia|done].
Qed.

(** X5.  [proposals2json] returns exactly when every result is a dict,
    whatever the proposals are; the dict it returns holds, under the
    video id of every result that is the last one with that id, the
    proposal list of that result as it is.  A result that is a tuple
    makes it raise a [TypeError]. *)
Theorem proposals2json_returns_iff (results : list result)
    (show_progress : bool) :
  if forallb is_dict results
  then exists result_dict,
         proposals2json results show_progress = Ok result_dict
         /\ forall i r,
             results !! i = Some r -> last_of_its_video results i r ->
             result_dict !! video_id (result_video_name r)
             = Some (proposal_list_of r)
  else exists msg,
         proposals2json results show_progress = Raise (TypeError msg).
Proof.
  unfold proposals2json. destruct (forallb is_dict results) eqn:Hd.
  - exists (fold_left file_json results ∅). split; [by apply json_loop|].
    intros i r Hi Hlast.
    by apply (lookup_fold_insert_last
                (fun r => video_id (result_video_name r)) proposal_list_of
                results ∅ i r).
  - by apply json_loop_fails.
Qed.

Lemma well_formed_is_dict (results : list result) :
  forallb well_formed results = true -> forallb is_dict results = true.
Proof.
  induction results as [|r rs IH]; [done|]. simpl.
  intros [Hr Hrs]%andb_prop. rewrite IH by done.
  by destruct r.
Qed.

Lemma triples_of_proposal_list (r : result) :
  triples_of r = map triple_of (proposal_list_of r).
Proof. by destruct r. Qed.

Lemma fold_file_result_fmap (results : list result)
    (m : gmap string (list proposal)) :
  fold_left file_result results (map triple_of <$> m)
  = map triple_of <$> fold_left file_json results m.
Proof.
  revert m. induction results as [|r rs IH]; intros m; [done|]. simpl.
  rewrite <- IH. f_equal. unfold file_result, file_json.
  by rewrite fmap_insert, triples_of_proposal_list.
Qed.

(** X6.  Whenever [_import_proposals] returns a mapping,
    [proposals2json] returns one too, with the same keys, and each list
    of rows of the former is the list of [(t_start, t_end, score)]
    triples of the proposal list the latter holds under that key. *)
Theorem import_proposals_agrees_with_json (results : list result)
    (proposals : gmap string (list proposal_row)) (num_proposals : nat) :
  _import_proposals results = Ok (proposals, num_proposals) ->
  exists result_dict,
    proposals2json results false = Ok result_dict
    /\ proposals = (map triple_of <$> result_dict).
Proof.
  intros Hrun. unfold _import_proposals in Hrun.
  destruct (forallb well_formed results) eqn:Hwf.
  - rewrite import_loop in Hrun by done. injection Hrun as <- _.
    exists (fold_left file_json results ∅). split.
    + apply json_loop. by apply well_formed_is_dict.
    + rewrite <- fold_file_result_fmap. by rewrite fmap_empty.
  - destruct (import_loop_fails results ∅ 0 Hwf) as [msg [Hf|Hf]];
      rewrite Hf in Hrun; discriminate.
Qed.

Lemma import_proposals_agrees_with_json_witness :
  exists result_dict,
    proposals2json sample_results false = Ok result_dict
    /\ fold_left file_result sample_results ∅
       = (map triple_of <$> result_dict).
Proof.
  apply (import_proposals_agrees_with_json sample_results _ 3).
  reflexivity.
Defined.

(** [proposals2json] accepts proposals that [_import_proposals]
    rejects. *)
Example proposals2json_malformed_segment :
  proposals2json malformed_results false
  = Ok {[ "a" := [ {| prop_segment := [1 # 1; 2 # 1; 3 # 1]%Q;
                      prop_score := 1 # 2 |} ] ]}
  /\ _import_proposals malformed_results
     = Raise (ValueError "too many values to unpack (expected 2)").
Proof. split; reflexivity. Qed.

(** *** The count and the mapping *)

Lemma stored_rows_insert {A : Type} (m : gmap string (list A)) (k : string)
    (rows : list A) :
  (stored_rows (<[k := rows]> m) <= length rows + stored_rows m)%nat
  /\ (m !! k = None ->
      stored_rows (<[k := rows]> m) = (length rows + stored_rows m)%nat).
Proof.
  assert (Hcomm : forall (m' : gmap string (list A)) j1 j2 z1 z2 y,
             j1 <> j2 -> m' !! j1 = Some z1 -> m' !! j2 = Some z2 ->
             (length z1 + (length z2 + y) = length z2 + (length z1 + y))%nat)
    by (intros; lia).
  assert (Hfresh : forall m' : gmap string (list A),
             m' !! k = None ->
             stored_rows (<[k := rows]> m')
             = (length rows + stored_rows m')%nat).
  { intros m' Hk. unfold stored_rows.
    apply (map_fold_insert_L (fun _ (rows : list A) acc =>
                                (length rows + acc)%nat));
      [apply Hcomm|done]. }
  split; [|apply Hfresh].
  destruct (m !! k) as [old|] eqn:Hk.
  - rewrite <- insert_delete_eq, Hfresh by apply lookup_delete_eq.
    unfold stored_rows at 2.
    rewrite (map_fold_delete_L _ _ k old m (Hcomm m) Hk).
    fold (stored_rows (delete k m)). lia.
  - rewrite Hfresh by done. lia.
Qed.

Lemma stored_rows_fold (results : list result)
    (m : gmap string (list proposal_row)) :
  (stored_rows (fold_left file_result results m)
   <= stored_rows m + total_proposal_count results)%nat.
Proof.
  revert m. induction results as [|r rs IH]; intros m; simpl.
  - unfold total_proposal_count. simpl. lia.
  - etransitivity; [apply IH|]. unfold file_result.
    pose proof (proj1 (stored_rows_insert m
                         (video_id (result_video_name r)) (triples_of r))).
    assert (length (triples_of r) = proposal_count r)
      by (destruct r; simpl; [apply length_map|done..]).
    unfold total_proposal_count in *. simpl. lia.
Qed.

Lemma stored_rows_fold_distinct (results : list result)
    (m : gmap string (list proposal_row)) :
  NoDup (map (fun r => video_id (result_video_name r)) results) ->
  (forall r, r ∈ results -> m !! video_id (result_video_name r) = None) ->
  stored_rows (fold_left file_result results m)
  = (stored_rows m + total_proposal_count results)%nat.
Proof.
  revert m. induction results as [|r rs IH]; intros m Hnodup Hfresh; simpl.
  - unfold total_proposal_count. simpl. lia.
  - apply NoDup_cons in Hnodup as [Hr Hrs]. rewrite IH; [|done|].
    + unfold file_result.
      rewrite (proj2 (stored_rows_insert m
                        (video_id (result_video_name r)) (triples_of r)))
        by (apply Hfresh; by left).
      assert (length (triples_of r) = proposal_count r)
        by (destruct r; simpl; [apply length_map|done..]).
      unfold total_proposal_count. simpl. lia.
    + intros r' Hr'. unfold file_result. rewrite lookup_insert_ne.
      * apply Hfresh. by right.
      * intros Heq. apply Hr. rewrite Heq.
        by apply (list_elem_of_fmap_2
                    (fun r => video_id (result_video_name r))).
Qed.

(** X7.  The count [_import_proposals] returns is never below the number
    of rows its mapping holds; the two are equal when the video ids of
    the results are pairwise distinct (a repeated id drops the rows of
    the earlier result from the mapping, not from the count). *)
Theorem import_proposals_count_bounds_rows (results : list result)
    (proposals : gmap string (list proposal_row)) (num_proposals : nat) :
  _import_proposals results = Ok (proposals, num_proposals) ->
  (stored_rows proposals <= num_proposals)%nat
  /\ (NoDup (map (fun r => video_id (result_video_name r)) results) ->
      stored_rows proposals = num_proposals).
Proof.
  intros Hrun. unfold _import_proposals in Hrun.
  destruct (forallb well_formed results) eqn:Hwf.
  - rewrite import_loop in Hrun by done. injection Hrun as <- <-.
    split.
    + pose proof (stored_rows_fold results ∅) as Hle.
      unfold stored_rows at 2 in Hle. rewrite map_fold_empty in Hle.
      simpl in *. lia.
    + intros Hnodup.
      rewrite stored_rows_fold_distinct; [|done|by intros].
      unfold stored_rows. by rewrite map_fold_empty.
  - destruct (import_loop_fails results ∅ 0 Hwf) as [msg [Hf|Hf]];
      rewrite Hf in Hrun; discriminate.
Qed.

Lemma import_proposals_count_bounds_rows_witness :
  (stored_rows (fold_left file_result repeated_results ∅) <= 1)%nat
  /\ (NoDup (map (fun r => video_id (result_video_name r)) sample_results) ->
      stored_rows (fold_left file_result sample_results ∅) = 3%nat).
Proof.
  split.
  - apply (import_proposals_count_bounds_rows repeated_results _ 1).
    reflexivity.
  - apply (import_proposals_count_bounds_rows sample_results _ 3).
    reflexivity.
Defined.

(** With a repeated video id the count is above the rows kept. *)
Example import_proposals_overcounts :
  stored_rows (fold_left file_result repeated_results ∅) = 0%nat
  /\ _import_proposals repeated_results
     = Ok (fold_left file_result repeated_results ∅, 1%nat).
Proof. split; reflexivity. Qed.

End ActivityNetImports.

(** ** More on [_evaluate], [dump_results] and [_load_annotations] *)

Module ActivityNetEvaluation.

Import ActivityNet ActivityNetFacts ActivityNetImports.

Section EvaluateMore.

Variable average_recall_at_avg_proposals :
  gmap string (list gt_row) -> gmap string (list proposal_row) -> nat ->
  Z -> list Q -> res (ndarray2 * list Q * list Q * Q).

Variables (ground_truth : gmap string (list gt_row))
          (proposal : gmap string (list proposal_row))
          (num_proposals : nat) (max_avg_proposals : Z)
          (temporal_iou_thresholds : list Q).

Abbreviation body :=
  (evaluate_metric average_recall_at_avg_proposals ground_truth proposal
     num_proposals max_avg_proposals temporal_iou_thresholds).

(** What the ['AR@AN'] branch does is the same for every [eval_results]
    it starts from: it raises one exception, or adds one report. *)
Lemma evaluate_metric_ar_an_cases :
  (exists e, forall eval_results, body eval_results "AR@AN" = Raise e)
  \/ (exists recall avg_recall per_video auc,
        average_recall_at_avg_proposals ground_truth proposal num_proposals
          max_avg_proposals temporal_iou_thresholds
        = Ok (recall, avg_recall, per_video, auc)
        /\ (100 <= ncols recall)%nat
        /\ forall eval_results,
            body eval_results "AR@AN"
            = Ok (ar_an_report recall auc eval_results)).
Proof.
  unfold evaluate_metric.
  destruct (decide ("AR@AN" = "AR@AN")) as [_|Hne]; [|done].
  destruct (average_recall_at_avg_proposals _ _ _ _ _)
    as [[[[recall avg_recall] per_video] auc]|e]; simpl;
    [|left; by exists e].
  unfold column.
  destruct (decide (0 < ncols recall)%nat); simpl;
    [|left; eexists; intros; reflexivity].
  destruct (decide (4 < ncols recall)%nat); simpl;
    [|left; eexists; intros; reflexivity].
  destruct (decide (9 < ncols recall)%nat); simpl;
    [|left; eexists; intros; reflexivity].
  destruct (decide (99 < ncols recall)%nat); simpl;
    [|left; eexists; intros; reflexivity].
  right. exists recall, avg_recall, per_video, auc.
  split; [done|]. split; [lia|]. intros; reflexivity.
Qed.

Lemma metrics_loop_raises (metrics : list string) (e : exn)
    (eval_results : gmap string Q) :
  "AR@AN" ∈ metrics ->
  (forall r, body r "AR@AN" = Raise e) ->
  for_each body metrics eval_results = Raise e.
Proof.
  intros Hin Hraise. induction metrics as [|metric ms IH];
    [by inversion Hin|].
  rewrite for_each_cons. destruct (decide (metric = "AR@AN")) as [->|Hne].
  - by rewrite Hraise.
  - rewrite evaluate_metric_other by done. simpl. apply IH.
    apply elem_of_cons in Hin as [Heq|Hin]; [congruence|done].
Qed.

Lemma metrics_loop_reports (metrics : list string) (recall : ndarray2)
    (auc : Q) (eval_results : gmap string Q) :
  "AR@AN" ∈ metrics ->
  (forall r, body r "AR@AN" = Ok (ar_an_report recall auc r)) ->
  for_each body metrics eval_results
  = Ok (ar_an_report recall auc eval_results).
Proof.
  intros Hin Hrep. revert eval_results Hin.
  induction metrics as [|metric ms IH]; intros r Hin; [by inversion Hin|].
  rewrite for_each_cons. destruct (decide (metric = "AR@AN")) as [->|Hne].
  - rewrite Hrep. simpl. destruct (decide ("AR@AN" ∈ ms)) as [Hms|Hms].
    + rewrite IH by done. by rewrite ar_an_report_again.
    + by apply metrics_loop_other.
  - rewrite evaluate_metric_other by done. simpl. apply IH.
    apply elem_of_cons in Hin as [Heq|Hin]; [congruence|done].
Qed.

Lemma metrics_loop_presence (metrics : list string)
    (eval_results : gmap string Q) :
  for_each body metrics eval_results
  = for_each body
      (if bool_decide ("AR@AN" ∈ metrics) then ["AR@AN"] else [])
      eval_results.
Proof.
  case_bool_decide as Hin.
  - destruct evaluate_metric_ar_an_cases
      as [[e Hraise]|(recall & a & p & auc & _ & _ & Hrep)].
    + rewrite metrics_loop_raises with (e := e) by done.
      simpl. by rewrite Hraise.
    + rewrite metrics_loop_reports with (recall := recall) (auc := auc)
        by done.
      simpl. by rewrite Hrep.
  - by apply metrics_loop_other.
Qed.

End EvaluateMore.

(** X8.  What [_evaluate] returns or raises depends on the metrics
    sequence only through whether ['AR@AN'] occurs in it: other names,
    the order and repetitions of ['AR@AN'] change nothing. *)
Theorem evaluate_depends_on_presence
    (average_recall_at_avg_proposals :
       gmap string (list gt_row) -> gmap string (list proposal_row) -> nat ->
       Z -> list Q -> res (ndarray2 * list Q * list Q * Q))
    (records : list video_info) (results : list result)
    (metrics : list string) (max_avg_proposals : Z)
    (temporal_iou_thresholds : list Q) :
  _evaluate average_recall_at_avg_proposals records results metrics
    max_avg_proposals temporal_iou_thresholds
  = _evaluate average_recall_at_avg_proposals records results
      (if bool_decide ("AR@AN" ∈ metrics) then ["AR@AN"] else [])
      max_avg_proposals temporal_iou_thresholds.
Proof.
  unfold _evaluate.
  destruct (_import_ground_truth records) as [gt|e]; [|done].
  destruct (_import_proposals results) as [[p n]|e]; [|done].
  simpl. apply metrics_loop_presence.
Qed.

Lemma iter_metrics_str_no_name (s : string) (name : string) :
  (String.length name <> 1)%nat -> name ∉ iter_metrics (MetricsStr s).
Proof.
  intros Hlen Hin. simpl in Hin.
  apply list_elem_of_In, in_map_iff in Hin as (c & <- & _).
  by apply Hlen.
Qed.

(** X9.  When [metrics] is a [str], as with the default ['AR@AN'], the
    loop of [_evaluate] goes over its characters, none of which is the
    name ['AR@AN']: the call returns an empty mapping whenever the
    imports succeed, and never asks for the average recall. *)
Theorem evaluate_string_metrics
    (average_recall_at_avg_proposals :
       gmap string (list gt_row) -> gmap string (list proposal_row) -> nat ->
       Z -> list Q -> res (ndarray2 * list Q * list Q * Q))
    (records : list video_info) (results : list result) (s : string)
    (max_avg_proposals : Z) (temporal_iou_thresholds : list Q)
    (ground_truth : gmap string (list gt_row))
    (proposal : gmap string (list proposal_row)) (num_proposals : nat) :
  _import_ground_truth records = Ok ground_truth ->
  _import_proposals results = Ok (proposal, num_proposals) ->
  _evaluate average_recall_at_avg_proposals records results
    (iter_metrics (MetricsStr s)) max_avg_proposals temporal_iou_thresholds
  = Ok ∅.
Proof.
  intros Hgt Hprop. unfold _evaluate. rewrite Hgt, Hprop. simpl.
  apply metrics_loop_other. by apply iter_metrics_str_no_name.
Qed.

Lemma evaluate_string_metrics_witness :
  _evaluate Accuracy.average_recall_call sample_records sample_results
    (iter_metrics default_metrics) default_max_avg_proposals
    default_temporal_iou_thresholds
  = Ok ∅.
Proof.
  eapply (evaluate_string_metrics Accuracy.average_recall_call
            sample_records sample_results "AR@AN"); reflexivity.
Defined.

(** X10.  When [_evaluate] returns with ['AR@AN'] among the metrics, the
    recall matrix it was given has at least 100 columns, and the mapping
    returned has exactly the keys ['auc'], ['AR@1'], ['AR@5'], ['AR@10']
    and ['AR@100'], with the returned [auc] under ['auc']. *)
Theorem evaluate_returns_report
    (average_recall_at_avg_proposals :
       gmap string (list gt_row) -> gmap string (list proposal_row) -> nat ->
       Z -> list Q -> res (ndarray2 * list Q * list Q * Q))
    (records : list video_info) (results : list result)
    (metrics : list string) (max_avg_proposals : Z)
    (temporal_iou_thresholds : list Q) (eval_results : gmap string Q) :
  "AR@AN" ∈ metrics ->
  _evaluate average_recall_at_avg_proposals records results metrics
    max_avg_proposals temporal_iou_thresholds
  = Ok eval_results ->
  exists ground_truth proposal num_proposals recall avg_recall per_video auc,
    _import_ground_truth records = Ok ground_truth
    /\ _import_proposals results = Ok (proposal, num_proposals)
    /\ average_recall_at_avg_proposals ground_truth proposal num_proposals
         max_avg_proposals temporal_iou_thresholds
       = Ok (recall, avg_recall, per_video, auc)
    /\ (100 <= ncols recall)%nat
    /\ dom eval_results = ar_an_keys
    /\ eval_results !! "auc" = Some auc.
Proof.
  intros Hin Hrun. unfold _evaluate in Hrun.
  destruct (_import_ground_truth records) as [gt|e]; [|discriminate].
  destruct (_import_proposals results) as [[p n]|e]; [|discriminate].
  simpl in Hrun.
  destruct (evaluate_metric_ar_an_cases average_recall_at_avg_proposals
              gt p n max_avg_proposals temporal_iou_thresholds)
    as [[e Hraise]|(recall & a & pv & auc & Havg & Hwide & Hrep)].
  - rewrite (metrics_loop_raises _ _ _ _ _ _ metrics e) in Hrun by done.
    discriminate.
  - rewrite (metrics_loop_reports _ _ _ _ _ _ metrics recall auc) in Hrun
      by done.
    injection Hrun as <-. exists gt, p, n, recall, a, pv, auc.
    repeat split;
      first [done
            |unfold ar_an_report, ar_an_keys;
             rewrite !dom_insert_L, dom_empty_L; set_solver].
Qed.

Lemma evaluate_returns_report_witness :
  exists ground_truth proposal num_proposals recall avg_recall per_video auc,
    _import_ground_truth sample_records = Ok ground_truth
    /\ _import_proposals sample_results = Ok (proposal, num_proposals)
    /\ Accuracy.average_recall_call ground_truth proposal num_proposals
         default_max_avg_proposals default_temporal_iou_thresholds
       = Ok (recall, avg_recall, per_video, auc)
    /\ (100 <= ncols recall)%nat
    /\ dom (ar_an_report recall auc ∅) = ar_an_keys
    /\ ar_an_report recall auc ∅ !! "auc" = Some auc.
Proof.
  destruct (evaluate_returns_report Accuracy.average_recall_call
              sample_records sample_results ["AR@AN"]
              default_max_avg_proposals default_temporal_iou_thresholds
              (ar_an_report
                 (fst (fst (fst (Accuracy.average_recall_at_avg_proposals
                    (fold_left file_record sample_records ∅)
                    (fold_left file_result sample_results ∅) 3
                    default_max_avg_proposals
                    default_temporal_iou_thresholds))))
                 (snd (Accuracy.average_recall_at_avg_proposals
                    (fold_left file_record sample_records ∅)
                    (fold_left file_result sample_results ∅) 3
                    default_max_avg_proposals
                    default_temporal_iou_thresholds)) ∅))
    as (gt & p & n & recall & a & pv & auc & Hgt & Hp & Havg & Hwide & _).
  - left.
  - reflexivity.
  - exists gt, p, n, recall, a, pv, auc. repeat split;
      first [done
            |unfold ar_an_report, ar_an_keys;
             rewrite !dom_insert_L, dom_empty_L; set_solver].
Defined.

(** X11.  A record with a segment that has not two elements makes
    [_evaluate] raise a [ValueError] whatever the results and the
    metrics, the empty sequence included; with sound records, a result
    that is a tuple or holds such a segment makes it raise a [TypeError]
    or a [ValueError]. *)
Theorem evaluate_rejects_malformed
    (average_recall_at_avg_proposals :
       gmap string (list gt_row) -> gmap string (list proposal_row) -> nat ->
       Z -> list Q -> res (ndarray2 * list Q * list Q * Q))
    (records : list video_info) (results : list result)
    (metrics : list string) (max_avg_proposals : Z)
    (temporal_iou_thresholds : list Q) :
  (forallb well_formed_record records = false ->
   exists msg,
     _evaluate average_recall_at_avg_proposals records results metrics
       max_avg_proposals temporal_iou_thresholds
     = Raise (ValueError msg))
  /\ (forallb well_formed_record records = true ->
      forallb well_formed results = false ->
      exists msg,
        _evaluate average_recall_at_avg_proposals records results metrics
          max_avg_proposals temporal_iou_thresholds
        = Raise (TypeError msg)
        \/ _evaluate average_recall_at_avg_proposals records results metrics
             max_avg_proposals temporal_iou_thresholds
           = Raise (ValueError msg)).
Proof.
  unfold _evaluate, _import_ground_truth, _import_proposals. split.
  - intros Hbad. destruct (gt_loop_fails records ∅ Hbad) as [msg Hrun].
    rewrite Hrun. by exists msg.
  - intros Hgood Hbad. rewrite gt_loop by done. simpl.
    destruct (import_loop_fails results ∅ 0 Hbad) as [msg [Hrun|Hrun]];
      rewrite Hrun; exists msg; [by left|by right].
Qed.

Lemma evaluate_rejects_malformed_witness :
  (exists msg,
     _evaluate Accuracy.average_recall_call malformed_records sample_results
       [] default_max_avg_proposals default_temporal_iou_thresholds
     = Raise (ValueError msg))
  /\ (exists msg,
        _evaluate Accuracy.average_recall_call sample_records pair_results
          [] default_max_avg_proposals default_temporal_iou_thresholds
        = Raise (TypeError msg)
        \/ _evaluate Accuracy.average_recall_call sample_records pair_results
             [] default_max_avg_proposals default_temporal_iou_thresholds
           = Raise (ValueError msg)).
Proof.
  split.
  - apply (evaluate_rejects_malformed Accuracy.average_recall_call
             malformed_records sample_results []). reflexivity.
  - apply (evaluate_rejects_malformed Accuracy.average_recall_call
             sample_records pair_results []); reflexivity.
Defined.

(** *** [dump_results] *)

Section DumpMore.

Variable fs : Type.
Variable mmcv_dump : output_dict -> string -> fs -> (string + unit) * fs.
Variable os_makedirs : string -> bool -> fs -> (string + unit) * fs.
Variable osp_join : string -> string -> string.
Variable np_savetxt :
  string -> pyobj -> string -> string -> string -> fs -> (string + unit) * fs.

Abbreviation dump :=
  (dump_results fs mmcv_dump os_makedirs osp_join np_savetxt).

(** X12.  With [output_format] ['json'] and a results list that holds a
    tuple, [dump_results] raises the [TypeError] of [proposals2json]
    before [mmcv.dump] is called: the file system stays as it was. *)
Theorem dump_json_rejects_tuples (results : list result)
    (out version : string) (s : fs) :
  forallb is_dict results = false ->
  exists msg,
    dump results out "json" version s = (Raise (TypeError msg), s).
Proof.
  intros Hbad. unfold dump_results. simpl.
  unfold mbind, io_mbind, io_bind, pure, proposals2json.
  destruct (json_loop_fails results ∅ Hbad) as [msg Hrun].
  rewrite Hrun. by exists msg.
Qed.

(** A loop that has raised is not resumed by more iterations. *)
Lemma io_for_each_raises {A : Type} (body : A -> io fs unit)
    (l1 l2 : list A) (e : exn) (s s' : fs) :
  io_for_each fs body l1 s = (Raise e, s') ->
  io_for_each fs body (l1 ++ l2) s = (Raise e, s').
Proof.
  revert s. induction l1 as [|x l1 IH]; intros s Hrun; [discriminate|].
  simpl in *. unfold mbind, io_mbind, io_bind in *.
  destruct (body x s) as [[[]|e0] s0]; [by apply IH|done].
Qed.

(** X13.  With [output_format] ['csv'], once writing the files of a
    results list has raised, the same exception and the same file system
    come out for every longer list that starts with it: the results
    after the failing one are not written, the files written before it
    stay. *)
Theorem dump_csv_stops_at_first_error (results more : list result)
    (out version : string) (e : exn) (s s' : fs) :
  dump results out "csv" version s = (Raise e, s') ->
  dump (results ++ more) out "csv" version s = (Raise e, s').
Proof.
  unfold dump_results. simpl. unfold mbind, io_mbind, io_bind.
  destruct (call fs (os_makedirs out true) s) as [[[]|e0] s0]; [|done].
  apply io_for_each_raises.
Qed.

End DumpMore.

Lemma dump_json_rejects_tuples_witness :
  exists msg,
    dump_results mem_fs mem_dump mem_makedirs mem_join mem_savetxt
      pair_results "proposals.json" "json" default_version ∅
    = (Raise (TypeError msg), ∅).
Proof.
  apply (dump_json_rejects_tuples mem_fs mem_dump mem_makedirs mem_join
           mem_savetxt pair_results). reflexivity.
Defined.

(** A file system whose [np.savetxt] refuses the file ["out/v_b.csv"]. *)
Lemma dump_csv_stops_at_first_error_witness :
  let savetxt path x header delimiter comments s :=
    if String.eqb path "out/v_b.csv"
    then (inl "cannot write", s)
    else mem_savetxt path x header delimiter comments s in
  dump_results mem_fs mem_dump mem_makedirs mem_join savetxt
    (pair_results ++ [ResultPair "v_c" (ObjArray [])]) "out" "csv"
    default_version ∅
  = (Raise (LibraryError "cannot write"),
     {[ "out/v_a.csv" := inr (ObjArray [[0; 1 # 1; 2 # 1]%Q]) ]}).
Proof.
  intros savetxt.
  apply (dump_csv_stops_at_first_error mem_fs mem_dump mem_makedirs mem_join
           savetxt pair_results). reflexivity.
Defined.

(** *** [_load_annotations] *)

Lemma load_loop (data_prefix : option string) (db : anno_database)
    (acc : list loaded_info) :
  for_each (load_video_info data_prefix) db acc
  = Ok (acc ++ map (loaded_of data_prefix) db).
Proof.
  revert acc. induction db as [|[video_name video_info] db IH]; intros acc.
  - simpl. by rewrite app_nil_r.
  - rewrite for_each_cons. simpl. rewrite IH. by rewrite <- app_assoc.
Qed.

(** X14.  [_load_annotations] returns one information per entry of the
    loaded database, in the order of the database, each with the key of
    the entry as ['video_name'], the given ['data_prefix'] and the
    annotations of the entry; when [mmcv.load] raises, so does it. *)
Theorem load_annotations_keeps_entries
    (mmcv_load_annotations : string -> string + anno_database)
    (ann_file : string) (data_prefix : option string) :
  match mmcv_load_annotations ann_file with
  | inr db =>
      exists video_infos,
        _load_annotations mmcv_load_annotations ann_file data_prefix
        = Ok video_infos
        /\ map loaded_video_name video_infos = map fst db
        /\ map loaded_annotations video_infos = map snd db
        /\ Forall (fun i => loaded_data_prefix i = data_prefix) video_infos
  | inl msg =>
      _load_annotations mmcv_load_annotations ann_file data_prefix
      = Raise (LibraryError msg)
  end.
Proof.
  unfold _load_annotations.
  destruct (mmcv_load_annotations ann_file) as [msg|db]; [done|].
  exists (map (loaded_of data_prefix) db). rewrite load_loop. simpl.
  split; [done|]. rewrite !map_map. simpl. repeat split.
  apply Forall_forall. intros i Hi.
  apply list_elem_of_In, in_map_iff in Hi as (item & <- & _). done.
Qed.

Lemma records_of_database (data_prefix : option string) (db : anno_database) :
  map record_of (map (loaded_of data_prefix) db)
  = map (fun item => {| info_video_name := fst item;
                        info_annotations := snd item |}) db.
Proof. by rewrite map_map. Qed.

(** X15.  Loading a database and importing the ground truth of what was
    loaded: when the keys of the database are pairwise distinct and
    start with the same two characters, and every segment has two
    elements, the ground truth holds, for every entry of the database
    and under its key without the first two characters, the
    [[t_start, t_end, label]] rows of the annotations of that entry. *)
Theorem ground_truth_of_loaded_annotations
    (mmcv_load_annotations : string -> string + anno_database)
    (ann_file : string) (data_prefix : option string) (db : anno_database)
    (c1 c2 : Ascii.ascii) :
  mmcv_load_annotations ann_file = inr db ->
  NoDup (map fst db) ->
  (forall name, name ∈ map fst db ->
                exists rest, name = String c1 (String c2 rest)) ->
  forallb (forallb two_element_annotation) (map snd db) = true ->
  exists video_infos ground_truth,
    _load_annotations mmcv_load_annotations ann_file data_prefix
    = Ok video_infos
    /\ _import_ground_truth (map record_of video_infos) = Ok ground_truth
    /\ forall video_name annotations,
        (video_name, annotations) ∈ db ->
        ground_truth !! str_drop 2 video_name
        = Some (map gt_row_of annotations).
Proof.
  intros Hload Hnodup Hprefix Hwf.
  set (records := map (fun item : string * list annotation =>
                         {| info_video_name := fst item;
                            info_annotations := snd item |}) db).
  assert (Hnames : map info_video_name records = map fst db)
    by (unfold records; by rewrite map_map).
  assert (Hgood : forallb well_formed_record records = true).
  { unfold records. clear -Hwf. induction db as [|item db IH]; [done|].
    simpl in *. apply andb_prop in Hwf as [Hi Hdb].
    unfold well_formed_record at 1. simpl. rewrite Hi. by apply IH. }
  exists (map (loaded_of data_prefix) db), (fold_left file_record records ∅).
  split; [|split].
  - unfold _load_annotations. rewrite Hload. by rewrite load_loop.
  - rewrite records_of_database. by apply gt_loop.
  - intros video_name annotations Hin.
    apply list_elem_of_lookup in Hin as [i Hi].
    assert (Hrec : records !! i
                   = Some {| info_video_name := video_name;
                             info_annotations := annotations |}).
    { unfold records. rewrite AccuracyFacts.lookup_map, Hi. done. }
    apply (lookup_fold_record_last records ∅ i) in Hrec; [exact Hrec|].
    intros j v' Hij Hj Heq. simpl in Heq.
    pose proof (video_id_common_prefix c1 c2 (map fst db) Hprefix Hnodup)
      as Hids.
    assert (Hi' : map video_id (map fst db) !! i = Some (video_id video_name))
      by (by rewrite !AccuracyFacts.lookup_map, Hi).
    assert (Hj' : map video_id (map fst db) !! j = Some (video_id video_name)).
    { rewrite <- Hnames, !AccuracyFacts.lookup_map, Hj. simpl. by rewrite Heq. }
    pose proof (NoDup_lookup _ _ _ _ Hids Hi' Hj'). lia.
Qed.

Lemma ground_truth_of_loaded_annotations_witness :
  exists video_infos ground_truth,
    _load_annotations (fun _ => inr sample_database) "anet_anno_val.json" None
    = Ok video_infos
    /\ _import_ground_truth (map record_of video_infos) = Ok ground_truth
    /\ forall video_name annotations,
        (video_name, annotations) ∈ sample_database ->
        ground_truth !! str_drop 2 video_name
        = Some (map gt_row_of annotations).
Proof.
  eapply (ground_truth_of_loaded_annotations (fun _ => inr sample_database)
            "anet_anno_val.json" None sample_database).
  - reflexivity.
  - simpl. repeat constructor; set_solver.
  - intros name Hname. simpl in Hname.
    rewrite !elem_of_cons, elem_of_nil in Hname.
    destruct Hname as [-> | [-> | []]]; by eexists.
  - reflexivity.
Defined.

End ActivityNetEvaluation.

(** ** The loss of the VideoAligner neck *)

Module VideoAlignerLoss.

Import VideoAligner.

Section LossFacts.

Variable tensor : Type.
Variable spatial_pool : tensor -> string + tensor.
Variable mapper : tensor -> string + tensor.
Variable normalize : tensor -> Z -> string + tensor.
Variable view : tensor -> Z -> Z -> Z -> string + tensor.
Variables L D : Type.

(** X16.  Whatever [loss] is given, a dict it returns is empty, and an
    exception it raises is the one of
    [temporal_embd.view(-1, embd_size, temporal_size)], which is called
    only when none of the three arguments is [None]. *)
Theorem loss_adds_no_term (self : t) (temporal_embd : option tensor)
    (labels : option L) (dataset_id : option D) :
  (forall losses,
     loss tensor view self temporal_embd labels dataset_id = Ok losses ->
     losses = ∅)
  /\ (forall e,
        loss tensor view self temporal_embd labels dataset_id = Raise e ->
        exists embd label id msg,
          temporal_embd = Some embd /\ labels = Some label
          /\ dataset_id = Some id
          /\ view embd (-1) (embd_size self) (temporal_size self) = inl msg
          /\ e = LibraryError msg).
Proof.
  unfold loss. split.
  - intros losses Hrun.
    destruct temporal_embd as [embd|], labels as [label|],
      dataset_id as [id|]; try (by injection Hrun).
    destruct (view embd _ _ _); [discriminate|by injection Hrun].
  - intros e Hrun.
    destruct temporal_embd as [embd|], labels as [label|],
      dataset_id as [id|]; try discriminate.
    destruct (view embd _ _ _) as [msg|reshaped] eqn:Hview; [|discriminate].
    injection Hrun as <-. by exists embd, label, id, msg.
Qed.

(** X17.  In training mode the extra data of [forward] makes [loss]
    return the empty dict, whatever the labels and the dataset ids, and
    without reshaping anything: the embedding it is handed is [None]. *)
Theorem loss_after_training_forward (self : t) (x : tensor)
    (labels : option L) (dataset_id : option D) :
  training self = true ->
  exists extra,
    forward tensor spatial_pool mapper normalize self x true
    = Ok (WithExtra tensor x extra)
    /\ loss tensor view self (temporal_embd tensor extra) labels dataset_id
       = Ok ∅.
Proof.
  intros Htrain. unfold forward. rewrite Htrain. simpl.
  eexists. split; [reflexivity|]. reflexivity.
Qed.

End LossFacts.

Lemma loss_adds_no_term_witness :
  let view (e : Z) (a b c : Z) : string + Z :=
    if (e mod (b * c) =? 0)%Z then inr e else inl "shape is invalid" in
  let self := init 960 (inl 7%Z) 4 512 256 in
  loss Z view self (Some 2048%Z) (Some 3%nat) (Some 0%nat) = Ok ∅
  /\ loss Z view self (Some 5%Z) (Some 3%nat) (Some 0%nat)
     = Raise (LibraryError "shape is invalid").
Proof.
  intros view self. split.
  - destruct (loss Z view self (Some 2048%Z) (Some 3%nat) (Some 0%nat))
      as [losses|e] eqn:Hrun; [|discriminate Hrun].
    f_equal.
    by apply (loss_adds_no_term Z view nat nat self (Some 2048%Z)
                (Some 3%nat) (Some 0%nat)).
  - destruct (loss Z view self (Some 5%Z) (Some 3%nat) (Some 0%nat))
      as [losses|e] eqn:Hrun; [discriminate Hrun|].
    apply (loss_adds_no_term Z view nat nat self) in Hrun
      as (embd & label & id & msg & Hembd & _ & _ & Hview & ->).
    injection Hembd as <-. vm_compute in Hview. by injection Hview as <-.
Defined.

Lemma loss_after_training_forward_witness :
  let view (e : shape) (a b c : Z) : string + shape :=
    inl "shape is invalid" in
  let self := init 960 (inl 7%Z) 4 512 256 in
  let x := [2; 960; 4; 3; 3]%Z in
  training self = true
  /\ exists extra,
      forward shape (avg_pool_shape self) (mapper_shape self)
        normalize_shape self x true
      = Ok (WithExtra shape x extra)
      /\ loss shape view self (temporal_embd shape extra) (Some 3%nat)
           (Some 0%nat)
         = Ok ∅.
Proof.
  intros view self x. split; [reflexivity|].
  apply (loss_after_training_forward shape (avg_pool_shape self)
           (mapper_shape self) normalize_shape view nat nat self x).
  reflexivity.
Defined.

End VideoAlignerLoss.

(** ** The order of the results *)

Module ActivityNetOrder.

Import ActivityNet ActivityNetFacts ActivityNetImports.

Abbreviation id_of := (fun r : result => video_id (result_video_name r)).

Lemma lookup_fold_file_distinct (results : list result)
    (m : gmap string (list proposal_row)) (r : result) :
  NoDup (map id_of results) -> r ∈ results ->
  fold_left file_result results m !! id_of r = Some (triples_of r).
Proof.
  intros Hnodup Hr. apply list_elem_of_lookup in Hr as [i Hi].
  apply lookup_fold_file_last with i; [done|].
  intros j r' Hij Hj Heq.
  assert (Hi' : map id_of results !! i = Some (id_of r))
    by (by rewrite AccuracyFacts.lookup_map, Hi).
  assert (Hj' : map id_of results !! j = Some (id_of r))
    by (rewrite AccuracyFacts.lookup_map, Hj; simpl; by rewrite Heq).
  pose proof (NoDup_lookup _ _ _ _ Hnodup Hi' Hj'). lia.
Qed.

Lemma total_proposal_count_perm (results results' : list result) :
  results ≡ₚ results' ->
  total_proposal_count results = total_proposal_count results'.
Proof.
  unfold total_proposal_count.
  induction 1 as [|r l l' _ IH|r1 r2 l|l1 l2 l3 _ IH1 _ IH2]; simpl; lia.
Qed.

Lemma well_formed_perm (results results' : list result) :
  results ≡ₚ results' ->
  forallb well_formed results = true -> forallb well_formed results' = true.
Proof.
  intros Hperm. rewrite !forallb_forall. intros Hall r Hr. apply Hall.
  apply list_elem_of_In. rewrite Hperm. by apply list_elem_of_In.
Qed.

(** X18.  When the video ids of the results are pairwise distinct, the
    order of the results does not matter to [_import_proposals]: every
    reordering of the list gives the same mapping and the same count. *)
Theorem import_proposals_order_irrelevant (results results' : list result)
    (proposals : gmap string (list proposal_row)) (num_proposals : nat) :
  results ≡ₚ results' ->
  NoDup (map id_of results) ->
  _import_proposals results = Ok (proposals, num_proposals) ->
  _import_proposals results' = Ok (proposals, num_proposals).
Proof.
  intros Hperm Hnodup Hrun. unfold _import_proposals in *.
  destruct (forallb well_formed results) eqn:Hwf.
  - rewrite import_loop in Hrun by done. injection Hrun as <- <-.
    rewrite import_loop by (by apply (well_formed_perm results)).
    rewrite (total_proposal_count_perm _ _ Hperm). do 2 f_equal.
    assert (Hnodup' : NoDup (map id_of results')).
    { change (NoDup (id_of <$> results')). rewrite <- Hperm. exact Hnodup. }
    apply map_eq. intros k.
    destruct (decide (k ∈ map id_of results)) as [Hk|Hk].
    + apply list_elem_of_In, in_map_iff in Hk as (r & <- & Hr).
      apply list_elem_of_In in Hr.
      rewrite (lookup_fold_file_distinct results' ∅ r Hnodup')
        by (by rewrite <- Hperm).
      by rewrite (lookup_fold_file_distinct results ∅ r Hnodup).
    + rewrite !lookup_fold_file_other; [done| |].
      * intros r Hr <-. apply Hk.
        by apply (list_elem_of_fmap_2 id_of).
      * intros r Hr <-. apply Hk. rewrite <- Hperm in Hr.
        by apply (list_elem_of_fmap_2 id_of).
  - destruct (import_loop_fails results ∅ 0 Hwf) as [msg [Hf|Hf]];
      rewrite Hf in Hrun; discriminate.
Qed.

Lemma import_proposals_order_irrelevant_witness :
  _import_proposals (rev sample_results)
  = Ok (fold_left file_result sample_results ∅, 3%nat).
Proof.
  apply (import_proposals_order_irrelevant sample_results).
  - apply Permutation_rev.
  - simpl. repeat constructor; set_solver.
  - reflexivity.
Defined.

(** With a repeated video id the order decides which rows are kept. *)
Example import_proposals_order_matters :
  _import_proposals repeated_results = Ok ({[ "a" := [] ]}, 1%nat)
  /\ _import_proposals (rev repeated_results)
     = Ok ({[ "a" := [(1 # 1, 2 # 1, 9 # 10)%Q] ]}, 1%nat).
Proof. split; reflexivity. Qed.

End ActivityNetOrder.

(** ** Runs on malformed input *)

Module ActivityNetExamples.

Import ActivityNet.

(** A one-element segment stops the import of the ground truth. *)
Example import_ground_truth_short_segment :
  _import_ground_truth malformed_records
  = Raise (ValueError "not enough values to unpack (expected 2, got 1)").
Proof. reflexivity. Qed.

(** A result that is a pair cannot be indexed by ['video_name']. *)
Example import_proposals_pair :
  _import_proposals pair_results
  = Raise (TypeError "tuple indices must be integers or slices, not str")
  /\ proposals2json pair_results false
     = Raise (TypeError "tuple indices must be integers or slices, not str").
Proof. split; reflexivity. Qed.

(** The csv branch writes one file per pair. *)
Example dump_csv_pairs :
  dump_results mem_fs mem_dump mem_makedirs mem_join mem_savetxt
    pair_results "out" "csv" default_version ∅
  = (Ok tt,
     {[ "out/v_a.csv" := inr (ObjArray [[0; 1 # 1; 2 # 1]%Q]);
        "out/v_b.csv" := inr (ObjArray [[1 # 1; 3 # 1; 4 # 1]%Q]) ]}).
Proof. reflexivity. Qed.

End ActivityNetExamples.

(** ** Dumping to json and loading again *)

Module DumpRoundTrip.

Import ActivityNet ActivityNetFacts ActivityNetImports.



Section RoundTrip.

Variable fs : Type.
Variable mmcv_dump : output_dict -> string -> fs -> (string + unit) * fs.
Variable mmcv_load : string -> fs -> (string + output_dict) * fs.
Variable os_makedirs : string -> bool -> fs -> (string + unit) * fs.
Variable osp_join : string -> string -> string.
Variable np_savetxt :
  string -> pyobj -> string -> string -> string -> fs -> (string + unit) * fs.

(** [mmcv.load] gives back what [mmcv.dump] wrote. *)
Hypothesis load_after_dump :
  forall d path s0 s1,
    mmcv_dump d path s0 = (inr tt, s1) -> mmcv_load path s1 = (inr d, s1).


End RoundTrip.



End DumpRoundTrip.
